(** * Bale desktop shell (src/main.js): update cycle, permission handler and
    window-open handler

    The main process of the shell is one class, [BaleApp].  This development
    embeds the parts of it that carry behaviour:

    - [checkForUpdates] and [downloadAndInstallUpdate] (main.js:175-236),
    - the permission request handler installed by [setupPermissions]
      (main.js:84-92),
    - [handleExternalLinks] (main.js:53-56).

    The code is effectful JavaScript: it awaits promises, throws and catches,
    and talks to Electron, the network and the operating system.  It is
    embedded in a small monad [M] that reads the answers of the outside world
    from an environment [env], records every call to the outside world in a
    trace of [event]s, and either returns or throws. *)

From Stdlib Require Import ZArith NArith Ascii String List Bool.
From stdpp Require Import gmap strings list pretty.

#[local] Set Warnings "-register-all".

(** ** JavaScript values and errors *)

(** The values [JSON.parse] can produce, together with [undefined], which
    reading an absent property yields.  Numbers are kept as integers: the
    code never inspects one. *)
Inductive value : Type :=
  | VUndefined
  | VNull
  | VBool (b : bool)
  | VNum (n : Z)
  | VStr (s : string)
  | VArr (l : list value)
  | VObj (o : gmap string value).

(** A thrown or rejected error: its constructor name and its message. *)
Inductive js_error : Type :=
  | JsError (name : string) (message : string).

Definition TypeError (message : string) : js_error := JsError "TypeError" message.

(** The outcome of a computation that can throw, or of a settled promise. *)
Inductive result (A : Type) : Type :=
  | Ok (a : A)
  | Thrown (e : js_error).
Arguments Ok {A} a.
Arguments Thrown {A} e.

(** [typeof v], as used in the messages of [semver]. *)
Definition typeof (v : value) : string :=
  match v with
  | VUndefined => "undefined"
  | VNull => "object"
  | VBool _ => "boolean"
  | VNum _ => "number"
  | VStr _ => "string"
  | VArr _ => "object"
  | VObj _ => "object"
  end.

(** The value of [o.k] where it does not throw.  Only own properties of
    parsed objects are modelled; the two names the code reads, [version] and
    [latest], are defined on no prototype, so every other value yields
    [undefined]. *)
Definition own_prop (o : value) (k : string) : value :=
  match o with
  | VObj fields => default VUndefined (fields !! k)
  | _ => VUndefined
  end.

(** Conversion to a string inside a template literal. *)
Fixpoint ToString (v : value) : string :=
  match v with
  | VUndefined => "undefined"
  | VNull => "null"
  | VBool true => "true"
  | VBool false => "false"
  | VNum n => pretty n
  | VStr s => s
  | VArr l =>
      String.concat ","
        (List.map (fun x => match x with
                            | VUndefined | VNull => EmptyString
                            | _ => ToString x
                            end) l)
  | VObj _ => "[object Object]"
  end.

(** ** Semantic versions *)

Module semver.

(** Modelled from the spec: the [semver] package imported at main.js:2 is
    a dependency and not part of the sources.  The spec asks for "standard
    semantic-version ordering" of strings that "parse as a valid semantic
    version"; the definitions below follow the grammar and the precedence
    rules of Semantic Versioning 2.0.0. *)
Inductive identifier : Type :=
  | Numeric (n : N)
  | Alphanumeric (s : string).

Record SemVer : Type := {
  major : N;
  minor : N;
  patch : N;
  prerelease : list identifier;
  build : list string
}.

Definition is_digit (c : ascii) : bool :=
  let n := nat_of_ascii c in (48 <=? n)%nat && (n <=? 57)%nat.

Definition is_letter (c : ascii) : bool :=
  let n := nat_of_ascii c in
  ((65 <=? n)%nat && (n <=? 90)%nat) || ((97 <=? n)%nat && (n <=? 122)%nat).

Definition is_identifier_char (c : ascii) : bool :=
  is_digit c || is_letter c || Ascii.eqb c "-"%char.

Fixpoint all_chars (p : ascii -> bool) (s : string) : bool :=
  match s with
  | EmptyString => true
  | String c r => p c && all_chars p r
  end.

Fixpoint digits_value (acc : N) (s : string) : N :=
  match s with
  | EmptyString => acc
  | String c r => digits_value (10 * acc + (N.of_nat (nat_of_ascii c) - 48))%N r
  end.

(** [0|[1-9][0-9]*] *)
Definition numeric_identifier (s : string) : option N :=
  match s with
  | EmptyString => None
  | String c r =>
      if all_chars is_digit s && (negb (Ascii.eqb c "0"%char) || String.eqb r EmptyString)
      then Some (digits_value 0 s)
      else None
  end.

(** A pre-release identifier: non-empty, of letters, digits and hyphens;
    one made of digits only is numeric and has no leading zero. *)
Definition prerelease_identifier (s : string) : option identifier :=
  match s with
  | EmptyString => None
  | _ =>
      if all_chars is_digit s then Numeric <$> numeric_identifier s
      else if all_chars is_identifier_char s then Some (Alphanumeric s)
      else None
  end.

(** A build identifier: non-empty, of letters, digits and hyphens. *)
Definition build_identifier (s : string) : option string :=
  match s with
  | EmptyString => None
  | _ => if all_chars is_identifier_char s then Some s else None
  end.

(** [s.split(sep)] for a one-character separator. *)
Fixpoint split_on (sep : ascii) (s : string) : list string :=
  match s with
  | EmptyString => [EmptyString]
  | String c r =>
      if Ascii.eqb c sep then EmptyString :: split_on sep r
      else match split_on sep r with
           | h :: t => String c h :: t
           | [] => [String c EmptyString]
           end
  end.

(** The part before the first [sep], and the part after it when there is
    one. *)
Fixpoint cut_at (sep : ascii) (s : string) : string * option string :=
  match s with
  | EmptyString => (EmptyString, None)
  | String c r =>
      if Ascii.eqb c sep then (EmptyString, Some r)
      else let '(h, t) := cut_at sep r in (String c h, t)
  end.

Definition identifiers {A} (p : string -> option A) (s : option string) : option (list A) :=
  match s with
  | None => Some []
  | Some ids => mapM p (split_on "."%char ids)
  end.

(** Modelled from the spec: parsing of a "valid semantic version",
    [MAJOR.MINOR.PATCH[-PRERELEASE][+BUILD]]. *)
Definition parse (s : string) : option SemVer :=
  let '(core_pre, bld) := cut_at "+"%char s in
  let '(core, pre) := cut_at "-"%char core_pre in
  match split_on "."%char core with
  | [ma; mi; pa] =>
      ma ← numeric_identifier ma;
      mi ← numeric_identifier mi;
      pa ← numeric_identifier pa;
      pre ← identifiers prerelease_identifier pre;
      bld ← identifiers build_identifier bld;
      Some {| major := ma; minor := mi; patch := pa; prerelease := pre; build := bld |}
  | _ => None
  end.

(** [a || b] on comparison results. *)
Definition or_else (c1 c2 : comparison) : comparison :=
  match c1 with
  | Eq => c2
  | _ => c1
  end.

(** Numeric identifiers compare by value and come before alphanumeric
    ones, which compare in ASCII order. *)
Definition compareIdentifiers (a b : identifier) : comparison :=
  match a, b with
  | Numeric x, Numeric y => N.compare x y
  | Numeric _, Alphanumeric _ => Lt
  | Alphanumeric _, Numeric _ => Gt
  | Alphanumeric x, Alphanumeric y => String.compare x y
  end.

Definition compareMain (a b : SemVer) : comparison :=
  or_else (N.compare (major a) (major b))
    (or_else (N.compare (minor a) (minor b))
       (N.compare (patch a) (patch b))).

(** Identifier by identifier; when all of the shorter list agree, the
    longer list is the greater. *)
Fixpoint compareIdentifierLists (a b : list identifier) : comparison :=
  match a, b with
  | [], [] => Eq
  | [], _ :: _ => Lt
  | _ :: _, [] => Gt
  | x :: a', y :: b' => or_else (compareIdentifiers x y) (compareIdentifierLists a' b')
  end.

(** A version without pre-release is greater than one with. *)
Definition comparePre (a b : SemVer) : comparison :=
  match prerelease a, prerelease b with
  | _ :: _, [] => Lt
  | [], _ :: _ => Gt
  | [], [] => Eq
  | pa, pb => compareIdentifierLists pa pb
  end.

(** Modelled from the spec: "standard semantic-version ordering".  Build
    metadata takes no part in it. *)
Definition compare (a b : SemVer) : comparison :=
  or_else (compareMain a b) (comparePre a b).

(** [new SemVer(version)]: anything that is not a string, and any string
    that does not parse, is a [TypeError]. *)
Definition construct (version : value) : result SemVer :=
  match version with
  | VStr s =>
      match parse s with
      | Some v => Ok v
      | None => Thrown (TypeError ("Invalid Version: " +:+ s))
      end
  | _ => Thrown (TypeError ("Invalid version. Must be a string. Got type " +:+ typeof version))
  end.

(** Modelled from the spec: [semver.gt(a, b)], true exactly when [a] is
    strictly greater than [b]; both arguments are parsed first, [a] before
    [b], and an invalid one throws. *)
Definition gt (a b : value) : result bool :=
  match construct a with
  | Thrown e => Thrown e
  | Ok va =>
      match construct b with
      | Thrown e => Thrown e
      | Ok vb =>
          Ok match compare va vb with
             | Gt => true
             | _ => false
             end
      end
  end.

End semver.

(** ** The outside world *)

(** The options of [dialog.showMessageBox].  [buttons] is empty where the
    code passes none. *)
Record message_box : Type := {
  type : string;
  buttons : list string;
  title : string;
  message : string
}.

(** Every call that leaves the process, in the order the code makes it.  The
    window argument of the dialogs and of [download] is always the single
    main window and is left out. *)
Inductive event : Type :=
  | EFetch (url : string)
  | EMessageBox (options : message_box)
  | EDownload (url : value)
  | EExec (command : string)
  | EAppExit (exitCode : Z)
  | EConsoleError (label : string) (err : js_error)
  | EConsoleLog (label : string) (text : string)
  | EOpenExternal (url : string).

(** A fetched response: only its body, read through [response.json()]. *)
Record Response : Type := { body_json : result value }.

(** The item a finished download resolves to. *)
Record DownloadItem : Type := { getSavePath : string }.

(** The arguments [exec] passes to its callback. *)
Record exec_outcome : Type := {
  exec_error : option js_error;
  exec_stdout : string;
  exec_stderr : string
}.

(** What the outside world answers: the network, the build metadata, the
    user in front of a dialog, the download service and the shell. *)
Record env : Type := {
  world_fetch : string -> result Response;
  world_version : string;
  world_response : message_box -> nat;
  world_download : value -> result DownloadItem;
  world_exec : string -> exec_outcome
}.

(** ** The effect monad *)

Definition M (A : Type) : Type := env -> list event * result A.

Definition ret {A} (a : A) : M A := fun _ => ([], Ok a).

Definition bind {A B} (m : M A) (k : A -> M B) : M B :=
  fun w =>
    match m w with
    | (tr, Ok a) => let '(tr', r) := k a w in (tr ++ tr', r)
    | (tr, Thrown e) => (tr, Thrown e)
    end.

Definition throw {A} (e : js_error) : M A := fun _ => ([], Thrown e).

Definition emit (ev : event) : M unit := fun _ => ([ev], Ok tt).

Definition ask {A} (f : env -> A) : M A := fun w => ([], Ok (f w)).

(** A value that is already an outcome: returned, or thrown. *)
Definition settle {A} (r : result A) : M A := fun _ => ([], r).

(** [try { m } catch (error) { handler(error) }] *)
Definition try_catch {A} (m : M A) (handler : js_error -> M A) : M A :=
  fun w =>
    match m w with
    | (tr, Ok a) => (tr, Ok a)
    | (tr, Thrown e) => let '(tr', r) := handler e w in (tr ++ tr', r)
    end.

(** [promise.then(onFulfilled).catch(onRejected)]: the handler of [catch]
    receives the rejection of the promise and also whatever [onFulfilled]
    throws.  What [onRejected] itself throws is passed on as the outcome; in
    this code it throws nothing ([downloadAndInstallUpdate_returns]). *)
Definition then_catch {A} (promise : result A)
    (onFulfilled : A -> M unit) (onRejected : js_error -> M unit) : M unit :=
  match promise with
  | Ok a => try_catch (onFulfilled a) onRejected
  | Thrown e => onRejected e
  end.

Declare Scope js_scope.
Delimit Scope js_scope with js.
Notation "x <- m ;; k" := (bind m (fun x => k))
  (at level 100, m at next level, right associativity) : js_scope.
Notation "m ;; k" := (bind m (fun _ => k))
  (at level 100, right associativity) : js_scope.
#[local] Open Scope js_scope.

Definition trace {A} (m : M A) (w : env) : list event := fst (m w).
Definition outcome {A} (m : M A) (w : env) : result A := snd (m w).

(** ** The calls the code makes *)

Definition fetch (url : string) : M Response :=
  emit (EFetch url) ;; r <- ask (fun w => world_fetch w url) ;; settle r.

Definition response_json (response : Response) : M value :=
  settle (body_json response).

Definition app_getVersion : M string := ask world_version.

(** The [TypeError] of reading property [k] of [null] or [undefined]. *)
Definition cannot_read (o : value) (k : string) : js_error :=
  TypeError ("Cannot read properties of " +:+ ToString o
             +:+ " (reading '" +:+ k +:+ "')").

(** [o.k]: a [TypeError] on [null] and [undefined]. *)
Definition get_prop (o : value) (k : string) : M value :=
  match o with
  | VUndefined | VNull => throw (cannot_read o k)
  | _ => ret (own_prop o k)
  end.

(** [dialog.showMessageBox(this.mainWindow, options)]; the result is the
    index of the button the user chose. *)
Definition dialog_showMessageBox (options : message_box) : M nat :=
  emit (EMessageBox options) ;; ask (fun w => world_response w options).

(** [download(this.mainWindow, url)] of electron-dl: the settled promise. *)
Definition download (url : value) : M (result DownloadItem) :=
  emit (EDownload url) ;; ask (fun w => world_download w url).

(** [exec(command, callback)]: the shell runs the command and the callback
    receives what came of it. *)
Definition exec (command : string)
    (callback : option js_error -> string -> string -> M unit) : M unit :=
  emit (EExec command) ;;
  r <- ask (fun w => world_exec w command) ;;
  callback (exec_error r) (exec_stdout r) (exec_stderr r).

(** [app.exit(exitCode)]; Electron's default exit code is 0. *)
Definition app_exit (exitCode : option Z) : M unit :=
  emit (EAppExit (default 0%Z exitCode)).

Definition console_error (label : string) (err : js_error) : M unit :=
  emit (EConsoleError label err).

Definition console_log (label : string) (text : string) : M unit :=
  emit (EConsoleLog label text).

(** [shell.openExternal(url)] of Electron. *)
Definition shell_openExternal (url : string) : M unit :=
  emit (EOpenExternal url).

(** ** main.js *)

(** *** The update cycle (main.js:175-236) *)

Definition manifest_url : string :=
  "https://raw.githubusercontent.com/habibi-dev/Bale-windows/refs/heads/master/package.json".

Definition yes_button : string := "بله".
Definition no_button : string := "خیر".

(** The yes/no question of main.js:186-191. *)
Definition update_prompt (latestVersion : value) : message_box :=
  {| type := "question";
     buttons := [yes_button; no_button];
     title := "بروزرسانی موجود است";
     message := "نسخه " +:+ ToString latestVersion
                +:+ " جدید منتشر شده است. آیا می‌خواهید آن را دانلود و نصب کنید؟" |}.

(** The notice of main.js:203-207. *)
Definition downloading_notice : message_box :=
  {| type := "info";
     buttons := [];
     title := "در حال دانلود...";
     message := "در حال دانلود نسخه جدید... لطفا منتظر بمانید." |}.

(** The notice of main.js:211-215. *)
Definition download_complete_notice : message_box :=
  {| type := "info";
     buttons := [];
     title := "دانلود تمام شد";
     message := "نسخه جدید دانلود شد. لطفا فایل را اجرا کنید." |}.

(** The notice of main.js:230-234. *)
Definition download_failed_notice : message_box :=
  {| type := "error";
     buttons := [];
     title := "خطا";
     message := "در دانلود بروزرسانی مشکلی پیش آمد." |}.

Definition dquote : string := String "034"%char EmptyString.

(** The template literal of main.js:219: [start], an empty quoted window
    title, and the quoted path. *)
Definition launch_command (filePath : string) : string :=
  "start " +:+ dquote +:+ dquote +:+ " " +:+ dquote +:+ filePath +:+ dquote.

Definition downloadAndInstallUpdate (downloadLink : value) : M unit :=
  dialog_showMessageBox downloading_notice ;;
  promise <- download downloadLink ;;
  then_catch promise
    (fun downloadItem =>
       dialog_showMessageBox download_complete_notice ;;
       let filePath := getSavePath downloadItem in
       exec (launch_command filePath) (fun err stdout stderr =>
         match err with
         | Some e => console_error "Error launching installer:" e
         | None =>
             app_exit None ;;
             console_log "Installer started:" stdout
         end))
    (fun err =>
       console_error "Error downloading update:" err ;;
       dialog_showMessageBox download_failed_notice ;;
       ret tt).

Definition checkForUpdates : M unit :=
  try_catch
    (response <- fetch manifest_url ;;
     latestData <- response_json response ;;
     currentVersion <- app_getVersion ;;
     latestVersion <- get_prop latestData "version" ;;
     newer <- settle (semver.gt latestVersion (VStr currentVersion)) ;;
     if newer : bool then
       downloadLink <- get_prop latestData "latest" ;;
       userResponse <- dialog_showMessageBox (update_prompt latestVersion) ;;
       if Nat.eqb userResponse 0 then downloadAndInstallUpdate downloadLink
       else ret tt
     else ret tt)
    (fun err => console_error "Error checking for updates:" err).

(** *** The permission request handler (main.js:85-91)

    The handler receives the requested permission and a callback, and
    answers by calling the callback. *)
Definition permissionRequestHandler (permission : string)
    (callback : bool -> M unit) : M unit :=
  if String.eqb permission "notifications" then callback true
  else callback false.

(** *** The window-open handler (main.js:53-56) *)

(** The names main.js binds at its top level: its imports (main.js:1-7) and
    its own declarations (main.js:9-12). *)
Definition module_scope : list string :=
  ["app"; "BrowserWindow"; "Tray"; "Menu"; "ipcMain"; "dialog"; "Notification";
   "semver"; "download"; "fs"; "exec"; "fileURLToPath"; "path";
   "__filename"; "__dirname"; "BaleApp"].

(** The globals of the host that the code uses.  main.js is an ES module (it
    has [import] declarations and reads [import.meta.url]), and the scope of
    an ES module has no [require]. *)
Definition host_globals : list string := ["console"; "fetch"].

Definition ReferenceError (message : string) : js_error :=
  JsError "ReferenceError" message.

(** Evaluating a free identifier of main.js: a [ReferenceError] when neither
    the module nor the host binds it. *)
Definition identifier (name : string) : M unit :=
  if existsb (String.eqb name) (module_scope ++ host_globals) then ret tt
  else throw (ReferenceError (name +:+ " is not defined")).

Record HandlerDetails : Type := { url : string }.

Record WindowOpenHandlerResponse : Type := { action : string }.

(** main.js:53-56.  The call evaluates [require] first, then
    [.shell.openExternal(details.url)]; the [return] follows. *)
Definition handleExternalLinks (details : HandlerDetails) : M WindowOpenHandlerResponse :=
  identifier "require" ;;
  shell_openExternal (url details) ;;
  ret {| action := "deny" |}.

(** ** Reading a trace *)

Definition is_consent_prompt (ev : event) : bool :=
  match ev with
  | EMessageBox options => String.eqb (type options) "question"
  | _ => false
  end.

Definition is_message_box (ev : event) : bool :=
  match ev with
  | EMessageBox _ => true
  | _ => false
  end.

(** The consent prompts shown. *)
Definition consent_prompts (tr : list event) : list event :=
  List.filter is_consent_prompt tr.

(** Every dialog shown: prompts and notices. *)
Definition message_boxes (tr : list event) : list message_box :=
  omap (fun ev => match ev with EMessageBox o => Some o | _ => None end) tr.

(** The URLs handed to the download service. *)
Definition downloads (tr : list event) : list value :=
  omap (fun ev => match ev with EDownload u => Some u | _ => None end) tr.

(** The commands handed to the shell. *)
Definition launches (tr : list event) : list string :=
  omap (fun ev => match ev with EExec c => Some c | _ => None end) tr.

(** The exit codes the process was ended with. *)
Definition exits (tr : list event) : list Z :=
  omap (fun ev => match ev with EAppExit c => Some c | _ => None end) tr.

(** ** What a cycle sees *)

(** The manifest of a cycle: the parsed body of the response, when the
    fetch and the parsing both succeed. *)
Definition fetched_manifest (w : env) : option value :=
  match world_fetch w manifest_url with
  | Ok response =>
      match body_json response with
      | Ok latestData => Some latestData
      | Thrown _ => None
      end
  | Thrown _ => None
  end.

(** The semantic version a value holds, when it is a string that parses. *)
Definition version_of (v : value) : option semver.SemVer :=
  match v with
  | VStr s => semver.parse s
  | _ => None
  end.

(** [newer latestData w]: the [version] of the manifest and the running
    version are both valid, and the first is strictly greater. *)
Definition newer (latestData : value) (w : env) : Prop :=
  exists latest current,
    version_of (own_prop latestData "version") = Some latest /\
    semver.parse (world_version w) = Some current /\
    semver.compare latest current = Gt.

(** The user's answer to the consent prompt of a manifest. *)
Definition answer (latestData : value) (w : env) : nat :=
  world_response w (update_prompt (own_prop latestData "version")).

(** The outcome of main.js:181-183 on a parsed manifest: reading
    [latestData.version] and comparing it with the running version. *)
Definition version_check (latestData : value) (w : env) : result bool :=
  match latestData with
  | VUndefined | VNull => Thrown (cannot_read latestData "version")
  | _ => semver.gt (own_prop latestData "version") (VStr (world_version w))
  end.

(** What the callback of [exec] does with the outcome of the launch
    (main.js:220-225). *)
Definition launch_callback_trace (out : exec_outcome) : list event :=
  match exec_error out with
  | Some e => [EConsoleError "Error launching installer:" e]
  | None => [EAppExit 0; EConsoleLog "Installer started:" (exec_stdout out)]
  end.

(** The manifest of a cycle is newer than the running build. *)
Definition manifest_newer (w : env) : Prop :=
  exists latestData, fetched_manifest w = Some latestData /\ newer latestData w.

(** The notices of one type shown. *)
Definition notices_of_type (t : string) (tr : list event) : list message_box :=
  List.filter (fun o => String.eqb (type o) t) (message_boxes tr).

(** ** Example worlds *)

Module Examples.

Definition installer_url : string := "https://example/app-1.3.0.exe".

Definition installer : DownloadItem :=
  {| getSavePath := "C:/Users/me/Downloads/app-1.3.0.exe" |}.

Definition launched : exec_outcome :=
  {| exec_error := None; exec_stdout := EmptyString; exec_stderr := EmptyString |}.

Definition not_launched : exec_outcome :=
  {| exec_error := Some (JsError "Error" "Command failed");
     exec_stdout := EmptyString;
     exec_stderr := EmptyString |}.

(** A world that answers every call the same way. *)
Definition world (fetched : result Response) (current : string) (choice : nat)
    (downloaded : result DownloadItem) (launch : exec_outcome) : env :=
  {| world_fetch := fun _ => fetched;
     world_version := current;
     world_response := fun _ => choice;
     world_download := fun _ => downloaded;
     world_exec := fun _ => launch |}.

Definition serving (latestData : value) : result Response :=
  Ok {| body_json := Ok latestData |}.

(** The manifest the code expects: the link is in [latest]. *)
Definition manifest : value :=
  VObj {[ "version" := VStr "1.3.0"; "latest" := VStr installer_url ]}.

(** The manifest of the example of the spec: the link is in
    [latestDownloadUrl]. *)
Definition spec_manifest : value :=
  VObj {[ "version" := VStr "1.3.0"; "latestDownloadUrl" := VStr installer_url ]}.

Definition same_version_manifest : value :=
  VObj {[ "version" := VStr "1.2.0"; "latest" := VStr installer_url ]}.

Definition invalid_version_manifest : value :=
  VObj {[ "version" := VStr "1.3"; "latest" := VStr installer_url ]}.

Definition network_error : js_error := JsError "TypeError" "fetch failed".
Definition syntax_error : js_error := JsError "SyntaxError" "Unexpected token".
Definition download_error : js_error := JsError "Error" "Download interrupted".

Definition accepted : env := world (serving manifest) "1.2.0" 0 (Ok installer) launched.
Definition launch_fails : env := world (serving manifest) "1.2.0" 0 (Ok installer) not_launched.
Definition download_fails : env :=
  world (serving manifest) "1.2.0" 0 (Thrown download_error) launched.
Definition declined : env := world (serving manifest) "1.2.0" 1 (Ok installer) launched.
Definition up_to_date : env :=
  world (serving same_version_manifest) "1.2.0" 0 (Ok installer) launched.
Definition invalid_version : env :=
  world (serving invalid_version_manifest) "1.2.0" 0 (Ok installer) launched.
Definition offline : env := world (Thrown network_error) "1.2.0" 0 (Ok installer) launched.
Definition malformed : env :=
  world (Ok {| body_json := Thrown syntax_error |}) "1.2.0" 0 (Ok installer) launched.
Definition spec_example : env :=
  world (serving spec_manifest) "1.2.0" 0 (Ok installer) launched.

(** A callback that leaves a mark of the answer it was given. *)
Definition note_answer (granted : bool) : M unit :=
  console_log "permission" (if granted then "granted" else "denied").

End Examples.

(** The download step receives the [latestDownloadUrl] field of an accepted
    newer manifest.  It is what the data model of the spec says; the code
    reads [latest]. *)
Definition download_uses_latestDownloadUrl : Prop :=
  forall (w : env) (latestData : value),
    fetched_manifest w = Some latestData ->
    newer latestData w ->
    answer latestData w = 0 ->
    downloads (trace checkForUpdates w) = [own_prop latestData "latestDownloadUrl"].

(** * The window shell (main.js:12-173)

    The rest of [BaleApp]: the constructor, the window, the tray, and the
    handlers the code registers.  These read and write the two fields of the
    object and read [app.isQuiting], so the monad [Sh] threads a heap
    besides recording calls.  Calls into Electron and Node outside a [try]
    block are taken to return; inside one, the world decides whether they
    throw. *)

(** ** Values and paths *)

(** Whether a value counts as true in [!v], [v || w] and [if (v)]. *)
Definition truthy (v : value) : bool :=
  match v with
  | VUndefined | VNull => false
  | VBool b => b
  | VNum n => negb (Z.eqb n 0)
  | VStr s => negb (String.eqb s EmptyString)
  | VArr _ | VObj _ => true
  end.

(** [a || b] *)
Definition js_or (a b : value) : value := if truthy a then a else b.

(** A path below the directory of main.js: [path.join(__dirname, s1, ..., sn)]
    is kept as its segments [s1; ...; sn]. *)
Definition path : Type := list string.

(** ** The options the code passes to Electron *)

Record web_preferences : Type := {
  nodeIntegration : bool;
  contextIsolation : bool;
  webviewTag : bool;
  enableRemoteModule : bool;
  preload : path
}.

Record window_options : Type := {
  width : Z;
  height : Z;
  icon : path;
  autoHideMenuBar : bool;
  webPreferences : web_preferences
}.

Record notification_options : Type := {
  notification_title : value;
  notification_body : value;
  notification_icon : path
}.

(** ** Calls, world and heap *)

(** The calls of the shell.  [Basic] carries the calls of the code embedded
    in [M]; [On emitter name] is the registration of a listener. *)
Inductive call : Type :=
  | Basic (ev : event)
  | ConsoleErrorMessage (text : string)
  | RequestSingleInstanceLock
  | SetLoginItemSettings (openAtLogin : bool)
  | On (emitter : string) (name : string)
  | NewBrowserWindow (options : window_options)
  | RemoveMenu
  | SetWindowOpenHandler
  | LoadURL (address : string)
  | SetPermissionRequestHandler
  | ExecuteJavaScript (code : string)
  | InsertCSS (css : string)
  | NewNotification (options : notification_options)
  | NotificationShow
  | NewTray (image : path)
  | BuildFromTemplate (labels : list string)
  | SetToolTip (toolTip : string)
  | SetContextMenu
  | WindowShow
  | WindowHide
  | WindowRestore
  | WindowFocus
  | PreventDefault.

(** What the world answers to the shell at the time a handler runs. *)
Record shell_env : Type := {
  shell_notifications_supported : bool;
  shell_lock : bool;
  shell_visible : bool;
  shell_minimized : bool;
  shell_exists : path -> bool;
  shell_read : path -> result string;
  shell_new_notification : notification_options -> result unit;
  shell_show_notification : result unit;
  shell_cycle : env
}.

(** The fields of the [BaleApp] object and the [isQuiting] property the code
    reads on [app]. *)
Record heap : Type := {
  this_mainWindow : option window_options;
  this_tray : option path;
  app_isQuiting : value
}.

(** ** The monad of the shell *)

Definition Sh (A : Type) : Type := shell_env -> heap -> list call * heap * result A.

Definition sh_ret {A} (a : A) : Sh A := fun _ h => ([], h, Ok a).

Definition sh_bind {A B} (m : Sh A) (k : A -> Sh B) : Sh B :=
  fun w h =>
    match m w h with
    | (cs, h', Ok a) => let '(cs', h'', r) := k a w h' in (cs ++ cs', h'', r)
    | (cs, h', Thrown e) => (cs, h', Thrown e)
    end.

Definition sh_throw {A} (e : js_error) : Sh A := fun _ h => ([], h, Thrown e).

Definition sh_call (c : call) : Sh unit := fun _ h => ([c], h, Ok tt).

Definition sh_ask {A} (f : shell_env -> A) : Sh A := fun w h => ([], h, Ok (f w)).

Definition sh_gets {A} (f : heap -> A) : Sh A := fun _ h => ([], h, Ok (f h)).

Definition sh_modify (f : heap -> heap) : Sh unit := fun _ h => ([], f h, Ok tt).

Definition sh_settle {A} (r : result A) : Sh A := fun _ h => ([], h, r).

(** [try { m } catch (error) { handler(error) }]; what [m] wrote to the heap
    before it threw stays written. *)
Definition sh_try_catch {A} (m : Sh A) (handler : js_error -> Sh A) : Sh A :=
  fun w h =>
    match m w h with
    | (cs, h', Ok a) => (cs, h', Ok a)
    | (cs, h', Thrown e) => let '(cs', h'', r) := handler e w h' in (cs ++ cs', h'', r)
    end.

(** A synchronous call of code of the update cycle. *)
Definition sh_lift {A} (m : M A) : Sh A :=
  fun w h => let '(tr, r) := m (shell_cycle w) in (Basic <$> tr, h, r).

(** A call of an [async] function whose promise is dropped: its calls
    happen, nothing is thrown to the caller. *)
Definition sh_async {A} (m : M A) : Sh unit :=
  fun w h => (Basic <$> fst (m (shell_cycle w)), h, Ok tt).

Declare Scope shell_scope.
Delimit Scope shell_scope with shell.
Notation "x <- m ;; k" := (sh_bind m (fun x => k))
  (at level 100, m at next level, right associativity) : shell_scope.
Notation "m ;; k" := (sh_bind m (fun _ => k))
  (at level 100, right associativity) : shell_scope.
#[local] Open Scope shell_scope.

Definition calls {A} (m : Sh A) (w : shell_env) (h : heap) : list call := fst (fst (m w h)).
Definition heap_after {A} (m : Sh A) (w : shell_env) (h : heap) : heap := snd (fst (m w h)).
Definition returned {A} (m : Sh A) (w : shell_env) (h : heap) : result A := snd (m w h).

(** [this.mainWindow.property...] followed by a call: a [TypeError] while the
    field is [null]. *)
Definition on_mainWindow {A} (property : string) (m : Sh A) : Sh A :=
  win <- sh_gets this_mainWindow ;;
  match win with
  | None => sh_throw (cannot_read VNull property)
  | Some _ => m
  end.

(** [this.tray.property(...)] *)
Definition on_tray {A} (property : string) (m : Sh A) : Sh A :=
  t <- sh_gets this_tray ;;
  match t with
  | None => sh_throw (cannot_read VNull property)
  | Some _ => m
  end.

(** [console.error(label, error)] and [app.exit()], as in the update
    cycle. *)
Definition sh_console_error (label : string) (err : js_error) : Sh unit :=
  sh_call (Basic (EConsoleError label err)).

Definition sh_app_exit (exitCode : option Z) : Sh unit :=
  sh_call (Basic (EAppExit (default 0%Z exitCode))).

(** ** main.js, the shell *)

Definition newline : string := String "010"%char EmptyString.

(** main.js:148-150 *)
Definition getIconPath : path := ["icon.png"].

(** main.js:20-24 *)
Definition initNotificationHandlers : Sh unit :=
  supported <- sh_ask shell_notifications_supported ;;
  if negb supported then sh_call (ConsoleErrorMessage "Notifications are not supported")
  else sh_ret tt.

(** The options of main.js:27-39. *)
Definition main_window_options : window_options :=
  {| width := 1200;
     height := 800;
     icon := getIconPath;
     autoHideMenuBar := true;
     webPreferences :=
       {| nodeIntegration := false;
          contextIsolation := true;
          webviewTag := false;
          enableRemoteModule := false;
          preload := ["preload.js"] |} |}.

(** The handler of main.js:140-145. *)
Definition on_close : Sh unit :=
  quitting <- sh_gets app_isQuiting ;;
  if negb (truthy quitting) then
    sh_call PreventDefault ;;
    on_mainWindow "hide" (sh_call WindowHide)
  else sh_ret tt.

(** main.js:139-146 *)
Definition setupWindowEvents : Sh unit :=
  on_mainWindow "on" (sh_call (On "mainWindow" "close")).

(** main.js:84-92; the handler installed is [permissionRequestHandler]. *)
Definition setupPermissions : Sh unit :=
  on_mainWindow "webContents" (sh_call SetPermissionRequestHandler).

(** The script of main.js:59-63. *)
Definition request_permission_script : string :=
  newline +:+ "            Notification.requestPermission().then(permission => {"
  +:+ newline +:+ "                console.log('Notification permission:', permission);"
  +:+ newline +:+ "            });"
  +:+ newline +:+ "        ".

(** The handler of main.js:75-77. *)
Definition on_notification_click : Sh unit :=
  on_mainWindow "show" (sh_call WindowShow).

(** [new Notification(options)] *)
Definition new_Notification (options : notification_options) : Sh unit :=
  sh_call (NewNotification options) ;;
  r <- sh_ask (fun w => shell_new_notification w options) ;;
  sh_settle r.

(** [notification.show()] *)
Definition notification_show : Sh unit :=
  sh_call NotificationShow ;;
  r <- sh_ask shell_show_notification ;;
  sh_settle r.

(** The pattern [{title, body, icon}] in a parameter list: a [TypeError] on
    [null] and [undefined], before the body of the function is entered. *)
Definition destructure (payload : value) : Sh unit :=
  match payload with
  | VUndefined | VNull =>
      sh_throw (TypeError ("Cannot destructure property 'title' of " +:+ ToString payload))
  | _ => sh_ret tt
  end.

(** The handler of main.js:65-81, on the second argument of the message. *)
Definition on_create_notification (payload : value) : Sh unit :=
  destructure payload ;;
  let title := own_prop payload "title" in
  let body := own_prop payload "body" in
  sh_try_catch
    (new_Notification {| notification_title := title;
                         notification_body := js_or body (VStr EmptyString);
                         notification_icon := getIconPath |} ;;
     notification_show ;;
     sh_call (On "notification" "click"))
    (fun err => sh_console_error "Error creating notification:" err).

(** main.js:58-82 *)
Definition setupNotificationListener : Sh unit :=
  on_mainWindow "webContents" (sh_call (ExecuteJavaScript request_permission_script)) ;;
  sh_call (On "ipcMain" "create-notification").

(** [fs.readFileSync(p, 'utf-8')] *)
Definition readFileSync (p : path) : Sh string :=
  r <- sh_ask (fun w => shell_read w p) ;; sh_settle r.

(** main.js:105-111 *)
Definition injectCSS : Sh unit :=
  let cssPath := ["assets"; "style.css"] in
  present <- sh_ask (fun w => shell_exists w cssPath) ;;
  if present : bool then
    cssContent <- readFileSync cssPath ;;
    on_mainWindow "webContents" (sh_call (InsertCSS cssContent))
  else sh_ret tt.

(** main.js:113-119 *)
Definition injectJS : Sh unit :=
  let jsPath := ["assets"; "script.js"] in
  present <- sh_ask (fun w => shell_exists w jsPath) ;;
  if present : bool then
    jsContent <- readFileSync jsPath ;;
    on_mainWindow "webContents" (sh_call (ExecuteJavaScript jsContent))
  else sh_ret tt.

(** The handler of main.js:95-102. *)
Definition on_dom_ready : Sh unit :=
  sh_try_catch
    (injectCSS ;; injectJS)
    (fun err => sh_console_error "Error injecting assets:" err).

(** main.js:94-103 *)
Definition injectCustomAssets : Sh unit :=
  on_mainWindow "webContents" (sh_call (On "webContents" "dom-ready")).

(** main.js:26-51 *)
Definition createWindow : Sh unit :=
  sh_call (NewBrowserWindow main_window_options) ;;
  sh_modify (fun h => {| this_mainWindow := Some main_window_options;
                         this_tray := this_tray h;
                         app_isQuiting := app_isQuiting h |}) ;;
  on_mainWindow "removeMenu" (sh_call RemoveMenu) ;;
  on_mainWindow "webContents" (sh_call SetWindowOpenHandler) ;;
  on_mainWindow "loadURL" (sh_call (LoadURL "https://web.bale.ai/")) ;;
  setupWindowEvents ;;
  setupPermissions ;;
  setupNotificationListener ;;
  injectCustomAssets.

(** The two items of the tray menu, main.js:124-125. *)
Definition on_menu_show : Sh unit := on_mainWindow "show" (sh_call WindowShow).

Definition on_menu_exit : Sh unit := sh_app_exit None.

(** The handler of main.js:134-136. *)
Definition on_tray_click : Sh unit :=
  visible <- on_mainWindow "isVisible" (sh_ask shell_visible) ;;
  if visible : bool then on_mainWindow "hide" (sh_call WindowHide)
  else on_mainWindow "show" (sh_call WindowShow).

(** main.js:133-137 *)
Definition setupTrayEvents : Sh unit :=
  on_tray "on" (sh_call (On "tray" "click")).

(** main.js:121-131 *)
Definition createTray : Sh unit :=
  sh_call (NewTray getIconPath) ;;
  sh_modify (fun h => {| this_mainWindow := this_mainWindow h;
                         this_tray := Some getIconPath;
                         app_isQuiting := app_isQuiting h |}) ;;
  sh_call (BuildFromTemplate ["نمایش"; "خروج"]) ;;
  on_tray "setToolTip" (sh_call (SetToolTip "Bale")) ;;
  on_tray "setContextMenu" (sh_call SetContextMenu) ;;
  setupTrayEvents.

(** The handler of main.js:159-164. *)
Definition on_second_instance : Sh unit :=
  win <- sh_gets this_mainWindow ;;
  match win with
  | Some _ =>
      minimized <- sh_ask shell_minimized ;;
      (if minimized : bool then sh_call WindowRestore else sh_ret tt) ;;
      sh_call WindowFocus
  | None => sh_ret tt
  end.

(** The handler of main.js:168-172. *)
Definition on_ready : Sh unit :=
  createWindow ;;
  createTray ;;
  sh_async checkForUpdates.

(** main.js:152-173 *)
Definition initApp : Sh unit :=
  sh_call RequestSingleInstanceLock ;;
  gotTheLock <- sh_ask shell_lock ;;
  if negb gotTheLock then sh_app_exit None
  else
    sh_call (On "app" "second-instance") ;;
    sh_call (SetLoginItemSettings true) ;;
    sh_call (On "app" "ready").

(** The heap [new BaleApp()] starts from: both fields [null] (main.js:14-15),
    and no [isQuiting] on [app]. *)
Definition initial_heap : heap :=
  {| this_mainWindow := None; this_tray := None; app_isQuiting := VUndefined |}.

(** main.js:13-18, after the two assignments. *)
Definition constructor : Sh unit :=
  initNotificationHandlers ;;
  initApp.

(** ** The life of the shell *)

(** What Electron can deliver to the listeners the code registers.  The
    permission handler is [permissionRequestHandler]; it has no access to the
    heap and is not repeated here. *)
Inductive input : Type :=
  | Ready
  | SecondInstance
  | Close
  | DomReady
  | CreateNotification (payload : value)
  | NotificationClick
  | TrayClick
  | MenuShow
  | MenuExit
  | WindowOpen (details : HandlerDetails).

Definition handler (i : input) : Sh unit :=
  match i with
  | Ready => on_ready
  | SecondInstance => on_second_instance
  | Close => on_close
  | DomReady => on_dom_ready
  | CreateNotification payload => on_create_notification payload
  | NotificationClick => on_notification_click
  | TrayClick => on_tray_click
  | MenuShow => on_menu_show
  | MenuExit => on_menu_exit
  | WindowOpen details => _ <- sh_lift (handleExternalLinks details) ;; sh_ret tt
  end.

(** The heap after a sequence of deliveries, each with the world of its
    moment.  A handler that throws leaves the heap as it was when it threw,
    and the next delivery goes on from there. *)
Fixpoint heap_after_run (deliveries : list (input * shell_env)) (h : heap) : heap :=
  match deliveries with
  | [] => h
  | (i, w) :: rest => heap_after_run rest (heap_after (handler i) w h)
  end.

(** The heaps the running application can be in: the constructor ran, with
    the lock, and then any deliveries. *)
Definition reachable (h : heap) : Prop :=
  exists w deliveries,
    shell_lock w = true /\
    h = heap_after_run deliveries (heap_after constructor w initial_heap).

(** The exit codes among the calls. *)
Definition exit_calls (cs : list call) : list Z :=
  omap (fun c => match c with Basic (EAppExit code) => Some code | _ => None end) cs.

(** The listeners registered among the calls. *)
Definition registrations (cs : list call) : list (string * string) :=
  omap (fun c => match c with On emitter name => Some (emitter, name) | _ => None end) cs.

(** [m] writes nothing to the heap, whether it returns or throws. *)
Definition preserves {A} (m : Sh A) : Prop :=
  forall w h, heap_after m w h = h.

(** [null] or [undefined]. *)
Definition nullish (v : value) : bool :=
  match v with
  | VUndefined | VNull => true
  | _ => false
  end.

Module ShellExamples.

Definition no_file : shell_env :=
  {| shell_notifications_supported := true;
     shell_lock := true;
     shell_visible := true;
     shell_minimized := false;
     shell_exists := fun _ => false;
     shell_read := fun _ => Thrown (JsError "Error" "ENOENT");
     shell_new_notification := fun _ => Ok tt;
     shell_show_notification := Ok tt;
     shell_cycle := Examples.up_to_date |}.

(** A second instance: the lock is taken. *)
Definition second : shell_env :=
  {| shell_notifications_supported := true;
     shell_lock := false;
     shell_visible := true;
     shell_minimized := false;
     shell_exists := fun _ => false;
     shell_read := fun _ => Thrown (JsError "Error" "ENOENT");
     shell_new_notification := fun _ => Ok tt;
     shell_show_notification := Ok tt;
     shell_cycle := Examples.up_to_date |}.

(** The style sheet is there and cannot be read; the script is there. *)
Definition unreadable_css : shell_env :=
  {| shell_notifications_supported := true;
     shell_lock := true;
     shell_visible := true;
     shell_minimized := false;
     shell_exists := fun _ => true;
     shell_read := fun p => if decide (p = ["assets"; "style.css"])
                            then Thrown (JsError "Error" "EACCES")
                            else Ok "console.log(1)";
     shell_new_notification := fun _ => Ok tt;
     shell_show_notification := Ok tt;
     shell_cycle := Examples.up_to_date |}.

(** Both assets are there and readable; the window is hidden and
    minimized. *)
Definition with_assets : shell_env :=
  {| shell_notifications_supported := true;
     shell_lock := true;
     shell_visible := false;
     shell_minimized := true;
     shell_exists := fun _ => true;
     shell_read := fun p => if decide (p = ["assets"; "style.css"])
                            then Ok "body{}"
                            else Ok "console.log(1)";
     shell_new_notification := fun _ => Ok tt;
     shell_show_notification := Ok tt;
     shell_cycle := Examples.accepted |}.

(** Electron refuses the notification. *)
Definition no_notification : shell_env :=
  {| shell_notifications_supported := false;
     shell_lock := true;
     shell_visible := true;
     shell_minimized := false;
     shell_exists := fun _ => false;
     shell_read := fun _ => Thrown (JsError "Error" "ENOENT");
     shell_new_notification := fun _ => Thrown (JsError "TypeError" "Invalid title");
     shell_show_notification := Ok tt;
     shell_cycle := Examples.up_to_date |}.

(** The heap once the window and the tray exist. *)
Definition running : heap :=
  {| this_mainWindow := Some main_window_options;
     this_tray := Some getIconPath;
     app_isQuiting := VUndefined |}.

Definition greeting : value :=
  VObj {[ "title" := VStr "Bale"; "body" := VStr "hello"; "icon" := VStr "https://x/i.png" ]}.

Definition no_body : value := VObj {[ "title" := VStr "Bale" ]}.

End ShellExamples.

#[local] Close Scope shell_scope.

(** * Properties *)

(** Unfolds the operations of the monad and the calls of the code. *)
Ltac run_js :=
  unfold downloadAndInstallUpdate, checkForUpdates, then_catch, try_catch, exec,
    download, dialog_showMessageBox, get_prop, app_getVersion, response_json,
    fetch, console_error, console_log, app_exit, shell_openExternal,
    bind, ret, throw, emit, ask, settle;
  cbn.

(** ** The two functions of the update cycle, run *)

Section Runs.

Variable w : env.

Lemma run_downloadAndInstallUpdate (downloadLink : value) :
  downloadAndInstallUpdate downloadLink w =
    (match world_download w downloadLink with
     | Ok item =>
         [EMessageBox downloading_notice; EDownload downloadLink;
          EMessageBox download_complete_notice;
          EExec (launch_command (getSavePath item))]
         ++ launch_callback_trace (world_exec w (launch_command (getSavePath item)))
     | Thrown e =>
         [EMessageBox downloading_notice; EDownload downloadLink;
          EConsoleError "Error downloading update:" e;
          EMessageBox download_failed_notice]
     end, Ok tt).
Proof.
  destruct (world_download w downloadLink) as [item | e] eqn:Hdl.
  - unfold launch_callback_trace.
    destruct (exec_error (world_exec w (launch_command (getSavePath item)))) eqn:Hex;
      run_js; rewrite Hdl; run_js; rewrite Hex; reflexivity.
  - run_js. rewrite Hdl. reflexivity.
Qed.

Lemma downloadAndInstallUpdate_returns (downloadLink : value) :
  outcome (downloadAndInstallUpdate downloadLink) w = Ok tt.
Proof. unfold outcome. now rewrite run_downloadAndInstallUpdate. Qed.

Lemma run_checkForUpdates :
  checkForUpdates w =
    (match world_fetch w manifest_url with
     | Thrown e => [EFetch manifest_url; EConsoleError "Error checking for updates:" e]
     | Ok response =>
         match body_json response with
         | Thrown e => [EFetch manifest_url; EConsoleError "Error checking for updates:" e]
         | Ok latestData =>
             match version_check latestData w with
             | Thrown e =>
                 [EFetch manifest_url; EConsoleError "Error checking for updates:" e]
             | Ok false => [EFetch manifest_url]
             | Ok true =>
                 EFetch manifest_url
                 :: EMessageBox (update_prompt (own_prop latestData "version"))
                 :: (if Nat.eqb (answer latestData w) 0
                     then trace (downloadAndInstallUpdate (own_prop latestData "latest")) w
                     else [])
             end
         end
     end, Ok tt).
Proof.
  destruct (world_fetch w manifest_url) as [response | e] eqn:Hfetch;
    [| run_js; rewrite Hfetch; reflexivity].
  destruct (body_json response) as [latestData | e] eqn:Hjson;
    [| run_js; rewrite Hfetch; cbn; rewrite Hjson; reflexivity].
  assert (Hget : forall k : string,
             get_prop latestData k w
             = match latestData with
               | VUndefined | VNull => ([], Thrown (cannot_read latestData k))
               | _ => ([], Ok (own_prop latestData k))
               end)
    by (intros k; destruct latestData; reflexivity).
  unfold checkForUpdates, fetch, response_json, app_getVersion, dialog_showMessageBox, console_error,
    try_catch, bind, emit, ask, settle, ret.
  cbv beta. rewrite Hfetch. cbv beta iota. rewrite Hjson. cbv beta iota. rewrite !Hget.
  unfold version_check, answer, trace.
  destruct latestData; cbn -[downloadAndInstallUpdate]; try reflexivity.
  destruct (semver.gt (default VUndefined (o !! "version")) (VStr (world_version w)))
    as [[|] | e]; cbn -[downloadAndInstallUpdate]; try reflexivity.
  destruct (world_response w (update_prompt (default VUndefined (o !! "version"))));
    cbn -[downloadAndInstallUpdate]; [| reflexivity].
  rewrite run_downloadAndInstallUpdate. reflexivity.
Qed.

End Runs.

(** ** The version comparison *)

Section VersionCheck.

Lemma construct_valid (v : value) (x : semver.SemVer) :
  version_of v = Some x -> semver.construct v = Ok x.
Proof.
  destruct v; cbn; try discriminate.
  intros ->. reflexivity.
Qed.

Lemma construct_invalid (v : value) :
  version_of v = None -> exists e, semver.construct v = Thrown e.
Proof.
  destruct v; cbn; eauto.
  intros ->. eauto.
Qed.

Lemma construct_Ok_inv (v : value) (x : semver.SemVer) :
  semver.construct v = Ok x -> version_of v = Some x.
Proof.
  destruct v; cbn; try discriminate.
  destruct (semver.parse s); [congruence | discriminate].
Qed.

Lemma gt_valid (a b : value) (x y : semver.SemVer) :
  version_of a = Some x -> version_of b = Some y ->
  semver.gt a b = Ok match semver.compare x y with Gt => true | _ => false end.
Proof.
  intros Ha Hb. unfold semver.gt.
  now rewrite (construct_valid _ _ Ha), (construct_valid _ _ Hb).
Qed.

Lemma gt_invalid (a b : value) :
  version_of a = None -> exists e, semver.gt a b = Thrown e.
Proof.
  intros Ha. unfold semver.gt.
  destruct (construct_invalid _ Ha) as [e ->]. eauto.
Qed.

Lemma gt_Ok_inv (a b : value) (r : bool) :
  semver.gt a b = Ok r ->
  exists x y, version_of a = Some x /\ version_of b = Some y /\
              r = match semver.compare x y with Gt => true | _ => false end.
Proof.
  unfold semver.gt.
  destruct (semver.construct a) as [x |] eqn:Ha; [| discriminate].
  destruct (semver.construct b) as [y |] eqn:Hb; [| discriminate].
  intros [= <-]. exists x, y.
  auto using construct_Ok_inv.
Qed.

Variable w : env.

(** A manifest whose [version] is valid is not [null] or [undefined], so
    the version check is the comparison. *)
Lemma version_check_valid (latestData : value) (x : semver.SemVer) :
  version_of (own_prop latestData "version") = Some x ->
  version_check latestData w
  = semver.gt (own_prop latestData "version") (VStr (world_version w)).
Proof. destruct latestData; cbn; try discriminate; reflexivity. Qed.

Lemma version_check_invalid (latestData : value) :
  version_of (own_prop latestData "version") = None ->
  exists e, version_check latestData w = Thrown e.
Proof.
  intros H. destruct latestData; cbn; eauto;
    apply gt_invalid; exact H.
Qed.

Lemma version_check_newer (latestData : value) :
  newer latestData w <-> version_check latestData w = Ok true.
Proof.
  split.
  - intros (x & y & Hx & Hy & Hgt).
    rewrite (version_check_valid _ _ Hx), (gt_valid _ (VStr _) _ _ Hx Hy), Hgt.
    reflexivity.
  - intros H.
    assert (Hgt : semver.gt (own_prop latestData "version") (VStr (world_version w))
                  = Ok true)
      by (destruct latestData; cbn in H; try discriminate; exact H).
    destruct (gt_Ok_inv _ _ _ Hgt) as (x & y & Hx & Hy & Hr).
    exists x, y. repeat split; [exact Hx | exact Hy |].
    destruct (semver.compare x y); congruence.
Qed.

Lemma version_check_not_newer (latestData : value) (x y : semver.SemVer) :
  version_of (own_prop latestData "version") = Some x ->
  semver.parse (world_version w) = Some y ->
  semver.compare x y <> Gt ->
  version_check latestData w = Ok false.
Proof.
  intros Hx Hy Hgt.
  rewrite (version_check_valid _ _ Hx), (gt_valid _ (VStr _) _ _ Hx Hy).
  destruct (semver.compare x y); congruence.
Qed.

(** The trace of a cycle whose fetch gave a manifest. *)
Lemma trace_checkForUpdates_manifest (latestData : value) :
  fetched_manifest w = Some latestData ->
  trace checkForUpdates w =
    match version_check latestData w with
    | Thrown e => [EFetch manifest_url; EConsoleError "Error checking for updates:" e]
    | Ok false => [EFetch manifest_url]
    | Ok true =>
        EFetch manifest_url
        :: EMessageBox (update_prompt (own_prop latestData "version"))
        :: (if Nat.eqb (answer latestData w) 0
            then trace (downloadAndInstallUpdate (own_prop latestData "latest")) w
            else [])
    end.
Proof.
  unfold fetched_manifest, trace. rewrite run_checkForUpdates.
  destruct (world_fetch w manifest_url) as [response |]; [| discriminate].
  destruct (body_json response); [| discriminate].
  intros [= ->]. reflexivity.
Qed.

(** The trace of a cycle whose fetch gave none. *)
Lemma trace_checkForUpdates_no_manifest :
  fetched_manifest w = None ->
  exists e, trace checkForUpdates w
            = [EFetch manifest_url; EConsoleError "Error checking for updates:" e].
Proof.
  unfold fetched_manifest, trace. rewrite run_checkForUpdates.
  destruct (world_fetch w manifest_url) as [response | e]; [| eauto].
  destruct (body_json response) as [| e]; [discriminate | eauto].
Qed.

(** The trace of a cycle with a newer manifest that the user accepts. *)
Lemma trace_checkForUpdates_accepted (latestData : value) :
  fetched_manifest w = Some latestData ->
  newer latestData w ->
  answer latestData w = 0 ->
  trace checkForUpdates w =
    [EFetch manifest_url; EMessageBox (update_prompt (own_prop latestData "version"))]
    ++ trace (downloadAndInstallUpdate (own_prop latestData "latest")) w.
Proof.
  intros Hm Hnew Hans.
  rewrite (trace_checkForUpdates_manifest _ Hm).
  apply version_check_newer in Hnew. rewrite Hnew, Hans. reflexivity.
Qed.

End VersionCheck.

(** ** Facts about traces *)

Section Traces.

Variable w : env.

Lemma install_shows_no_prompt (downloadLink : value) :
  consent_prompts (trace (downloadAndInstallUpdate downloadLink) w) = [].
Proof.
  unfold trace. rewrite run_downloadAndInstallUpdate. cbn [fst].
  destruct (world_download w downloadLink) as [item |]; [| reflexivity].
  unfold launch_callback_trace.
  destruct (exec_error (world_exec w (launch_command (getSavePath item))));
    reflexivity.
Qed.

Lemma install_downloads_link (downloadLink : value) :
  downloads (trace (downloadAndInstallUpdate downloadLink) w) = [downloadLink].
Proof.
  unfold trace. rewrite run_downloadAndInstallUpdate. cbn [fst].
  destruct (world_download w downloadLink) as [item |]; [| reflexivity].
  unfold launch_callback_trace.
  destruct (exec_error (world_exec w (launch_command (getSavePath item))));
    reflexivity.
Qed.

Lemma trace_install_resolved (downloadLink : value) (item : DownloadItem) :
  world_download w downloadLink = Ok item ->
  trace (downloadAndInstallUpdate downloadLink) w =
    [EMessageBox downloading_notice; EDownload downloadLink;
     EMessageBox download_complete_notice;
     EExec (launch_command (getSavePath item))]
    ++ launch_callback_trace (world_exec w (launch_command (getSavePath item))).
Proof.
  intros H. unfold trace. rewrite run_downloadAndInstallUpdate, H. reflexivity.
Qed.

Lemma trace_install_rejected (downloadLink : value) (e : js_error) :
  world_download w downloadLink = Thrown e ->
  trace (downloadAndInstallUpdate downloadLink) w =
    [EMessageBox downloading_notice; EDownload downloadLink;
     EConsoleError "Error downloading update:" e;
     EMessageBox download_failed_notice].
Proof.
  intros H. unfold trace. rewrite run_downloadAndInstallUpdate, H. reflexivity.
Qed.

End Traces.




(** ** The update check *)

(** C1.  In every update cycle a consent prompt is shown if and only if the
    fetched manifest's version is strictly greater than the running version
    in semantic-version order; no cycle shows more than one prompt, so a
    cycle that shows one shows exactly one; and when both versions are valid
    and the manifest's is not strictly greater, the cycle does nothing after
    the fetch: no prompt, no download, no other call. *)
Theorem C1_prompt_iff_strictly_greater (w : env) :
  let tr := trace checkForUpdates w in
  (consent_prompts tr <> [] <-> manifest_newer w) /\
  length (consent_prompts tr) <= 1 /\
  (forall latestData latest current,
      fetched_manifest w = Some latestData ->
      version_of (own_prop latestData "version") = Some latest ->
      semver.parse (world_version w) = Some current ->
      semver.compare latest current <> Gt ->
      tr = [EFetch manifest_url]).
Proof.
  cbn zeta. unfold manifest_newer.
  destruct (fetched_manifest w) as [latestData |] eqn:Hm.
  - rewrite (trace_checkForUpdates_manifest _ _ Hm).
    destruct (version_check latestData w) as [[|] | e] eqn:Hcheck.
    + assert (Hprompts :
          consent_prompts
            (EFetch manifest_url
             :: EMessageBox (update_prompt (own_prop latestData "version"))
             :: (if Nat.eqb (answer latestData w) 0
                 then trace (downloadAndInstallUpdate (own_prop latestData "latest")) w
                 else []))
          = [EMessageBox (update_prompt (own_prop latestData "version"))]).
      { unfold consent_prompts. cbn [List.filter is_consent_prompt type update_prompt].
        change (String.eqb "question" "question") with true. cbv iota.
        f_equal. destruct (Nat.eqb (answer latestData w) 0); [| reflexivity].
        apply install_shows_no_prompt. }
      rewrite Hprompts. repeat split.
      * intros _. exists latestData. split; [reflexivity |].
        now apply version_check_newer.
      * discriminate.
      * cbn. lia.
      * intros d x y [= <-] Hx Hy Hgt.
        rewrite (version_check_not_newer _ _ _ _ Hx Hy Hgt) in Hcheck.
        discriminate.
    + repeat split.
      * intros H. now contradiction H.
      * intros (d & [= <-] & Hnew). apply version_check_newer in Hnew. congruence.
      * cbn. lia.
    + repeat split.
      * intros H. now contradiction H.
      * intros (d & [= <-] & Hnew). apply version_check_newer in Hnew. congruence.
      * cbn. lia.
      * intros d x y [= <-] Hx Hy Hgt.
        rewrite (version_check_not_newer _ _ _ _ Hx Hy Hgt) in Hcheck.
        discriminate.
  - destruct (trace_checkForUpdates_no_manifest _ Hm) as [e ->].
    repeat split.
    + intros H. now contradiction H.
    + intros (d & Hd & _). discriminate.
    + cbn. lia.
    + intros d x y Hd. discriminate.
Qed.

Lemma C1_witness :
  consent_prompts (trace checkForUpdates Examples.accepted) <> []
  /\ trace checkForUpdates Examples.up_to_date = [EFetch manifest_url].
Proof.
  split.
  - apply (C1_prompt_iff_strictly_greater Examples.accepted).
    exists Examples.manifest. split; [reflexivity |].
    do 2 eexists. repeat split; reflexivity.
  - eapply (C1_prompt_iff_strictly_greater Examples.up_to_date).
    + reflexivity.
    + reflexivity.
    + reflexivity.
    + vm_compute. discriminate.
Defined.

(** C3.  When the fetch of the manifest errors, or the body of the response
    is not parseable, the cycle only logs the error: no prompt or notice is
    shown, no download is started, nothing is launched and the process does
    not exit. *)
Theorem C3_fetch_failure_only_logged (w : env) (e : js_error) :
  world_fetch w manifest_url = Thrown e
  \/ (exists response,
        world_fetch w manifest_url = Ok response /\ body_json response = Thrown e) ->
  let tr := trace checkForUpdates w in
  tr = [EFetch manifest_url; EConsoleError "Error checking for updates:" e] /\
  message_boxes tr = [] /\ downloads tr = [] /\ launches tr = [] /\ exits tr = [].
Proof.
  intros H. cbn zeta.
  assert (Htr : trace checkForUpdates w
                = [EFetch manifest_url; EConsoleError "Error checking for updates:" e]).
  { unfold trace. rewrite run_checkForUpdates.
    destruct H as [-> | (response & -> & ->)]; reflexivity. }
  rewrite Htr. repeat split.
Qed.

Lemma C3_witness :
  trace checkForUpdates Examples.offline
  = [EFetch manifest_url;
     EConsoleError "Error checking for updates:" Examples.network_error]
  /\ message_boxes (trace checkForUpdates Examples.malformed) = [].
Proof.
  split.
  - apply (C3_fetch_failure_only_logged Examples.offline Examples.network_error).
    left. reflexivity.
  - apply (C3_fetch_failure_only_logged Examples.malformed Examples.syntax_error).
    right. eexists. split; reflexivity.
Defined.

(** C7.  When the [version] of the manifest does not parse as a semantic
    version (also when it is absent or not a string), the check fails: the
    error is logged, no prompt or notice is shown and no download is
    attempted. *)
Theorem C7_invalid_version_fails_the_check (w : env) (latestData : value) :
  fetched_manifest w = Some latestData ->
  version_of (own_prop latestData "version") = None ->
  let tr := trace checkForUpdates w in
  (exists e, tr = [EFetch manifest_url; EConsoleError "Error checking for updates:" e]) /\
  consent_prompts tr = [] /\ message_boxes tr = [] /\ downloads tr = [].
Proof.
  intros Hm Hv. cbn zeta.
  rewrite (trace_checkForUpdates_manifest _ _ Hm).
  destruct (version_check_invalid w _ Hv) as [e ->].
  repeat split. exists e. reflexivity.
Qed.

Lemma C7_witness :
  consent_prompts (trace checkForUpdates Examples.invalid_version) = []
  /\ downloads (trace checkForUpdates Examples.invalid_version) = [].
Proof.
  pose proof (C7_invalid_version_fails_the_check Examples.invalid_version
                Examples.invalid_version_manifest eq_refl eq_refl) as H.
  split; apply H.
Defined.

(** C8.  When the prompt is shown and the user chooses the "no" button, the
    cycle ends there: nothing follows the prompt, and in particular the
    download service is not called. *)
Theorem C8_declined_ends_the_cycle (w : env) (latestData : value) :
  fetched_manifest w = Some latestData ->
  newer latestData w ->
  buttons (update_prompt (own_prop latestData "version")) !! answer latestData w
  = Some no_button ->
  let tr := trace checkForUpdates w in
  tr = [EFetch manifest_url; EMessageBox (update_prompt (own_prop latestData "version"))] /\
  downloads tr = [] /\ launches tr = [] /\ exits tr = [].
Proof.
  intros Hm Hnew Hno. cbn zeta.
  rewrite (trace_checkForUpdates_manifest _ _ Hm).
  apply version_check_newer in Hnew. rewrite Hnew.
  destruct (answer latestData w) as [| n]; [discriminate Hno |].
  repeat split.
Qed.

Lemma C8_witness :
  downloads (trace checkForUpdates Examples.declined) = [].
Proof.
  apply (C8_declined_ends_the_cycle Examples.declined Examples.manifest).
  - reflexivity.
  - do 2 eexists. repeat split; reflexivity.
  - reflexivity.
Defined.

(** The manifest of the example of the spec, accepted: the code looks for
    [latest], finds nothing and hands [undefined] to the download service,
    not the link in [latestDownloadUrl]. *)
Lemma C2_counterexample : ~ download_uses_latestDownloadUrl.
Proof.
  intros H.
  specialize (H Examples.spec_example Examples.spec_manifest eq_refl).
  assert (Hnew : newer Examples.spec_manifest Examples.spec_example)
    by (do 2 eexists; repeat split; reflexivity).
  specialize (H Hnew eq_refl).
  vm_compute in H. discriminate H.
Qed.

(** C2, amended.  When the manifest's version is strictly greater and the
    user accepts the prompt, the download-and-install step runs next, on the
    value of the manifest's [latest] field ([undefined] when the manifest has
    none), and that value is the one URL handed to the download service. *)
Theorem C2_install_receives_latest (w : env) (latestData : value) :
  fetched_manifest w = Some latestData ->
  newer latestData w ->
  answer latestData w = 0 ->
  trace checkForUpdates w
  = [EFetch manifest_url; EMessageBox (update_prompt (own_prop latestData "version"))]
    ++ trace (downloadAndInstallUpdate (own_prop latestData "latest")) w
  /\ downloads (trace checkForUpdates w) = [own_prop latestData "latest"].
Proof.
  intros Hm Hnew Hans.
  rewrite (trace_checkForUpdates_accepted _ _ Hm Hnew Hans).
  split; [reflexivity |].
  unfold downloads. rewrite omap_app. cbn [omap list_omap].
  apply (install_downloads_link w).
Qed.

Lemma C2_witness :
  downloads (trace checkForUpdates Examples.accepted) = [VStr Examples.installer_url].
Proof.
  apply (C2_install_receives_latest Examples.accepted Examples.manifest).
  - reflexivity.
  - do 2 eexists. repeat split; reflexivity.
  - reflexivity.
Defined.

(** ** Download and launch *)

(** C4.  When the download promise rejects, the error notice is shown (after
    the error is logged), nothing is launched and the process does not
    exit. *)
Theorem C4_download_failure_shows_notice (w : env) (downloadLink : value) (e : js_error) :
  world_download w downloadLink = Thrown e ->
  let tr := trace (downloadAndInstallUpdate downloadLink) w in
  tr = [EMessageBox downloading_notice; EDownload downloadLink;
        EConsoleError "Error downloading update:" e;
        EMessageBox download_failed_notice] /\
  notices_of_type "error" tr = [download_failed_notice] /\
  launches tr = [] /\ exits tr = [] /\
  outcome (downloadAndInstallUpdate downloadLink) w = Ok tt.
Proof.
  intros H. cbn zeta. rewrite (trace_install_rejected _ _ _ H).
  repeat split. apply downloadAndInstallUpdate_returns.
Qed.

Lemma C4_witness :
  notices_of_type "error"
    (trace (downloadAndInstallUpdate (VStr Examples.installer_url)) Examples.download_fails)
  = [download_failed_notice].
Proof.
  apply (C4_download_failure_shows_notice Examples.download_fails
           (VStr Examples.installer_url) Examples.download_error).
  reflexivity.
Defined.

(** C5.  After an accepted prompt and a successful download, the process
    exits, with code 0, if and only if the launch of the installer reported
    no error; when the launch fails the failure is logged and the process is
    not ended. *)
Theorem C5_exit_iff_launch_succeeded (w : env) (latestData : value) (item : DownloadItem) :
  fetched_manifest w = Some latestData ->
  newer latestData w ->
  answer latestData w = 0 ->
  world_download w (own_prop latestData "latest") = Ok item ->
  let tr := trace checkForUpdates w in
  let launch := world_exec w (launch_command (getSavePath item)) in
  (exits tr = [0%Z] <-> exec_error launch = None) /\
  (forall e, exec_error launch = Some e ->
             EConsoleError "Error launching installer:" e ∈ tr /\ exits tr = []).
Proof.
  intros Hm Hnew Hans Hdl. cbn zeta.
  rewrite (trace_checkForUpdates_accepted _ _ Hm Hnew Hans),
    (trace_install_resolved _ _ _ Hdl).
  unfold launch_callback_trace.
  destruct (exec_error (world_exec w (launch_command (getSavePath item)))) as [e |].
  - split; [split; discriminate |].
    intros e' [= <-]. split; [| reflexivity].
    cbn. set_solver.
  - split; [split; reflexivity |].
    intros e'. discriminate.
Qed.

Lemma C5_witness :
  exits (trace checkForUpdates Examples.accepted) = [0%Z]
  /\ exits (trace checkForUpdates Examples.launch_fails) = [].
Proof.
  split.
  - apply (C5_exit_iff_launch_succeeded Examples.accepted Examples.manifest
             Examples.installer).
    + reflexivity.
    + do 2 eexists. repeat split; reflexivity.
    + reflexivity.
    + reflexivity.
    + reflexivity.
  - eapply (C5_exit_iff_launch_succeeded Examples.launch_fails Examples.manifest
              Examples.installer).
    + reflexivity.
    + do 2 eexists. repeat split; reflexivity.
    + reflexivity.
    + reflexivity.
    + reflexivity.
Defined.



(** ** The handlers of the window *)

(** C9.  The permission handler answers every request through the callback,
    granting it if and only if the requested permission is [notifications]
    and denying every other. *)
Theorem C9_only_notifications_granted
    (permission : string) (callback : bool -> M unit) (w : env) :
  (permission = "notifications" ->
     permissionRequestHandler permission callback w = callback true w) /\
  (permission <> "notifications" ->
     permissionRequestHandler permission callback w = callback false w).
Proof.
  unfold permissionRequestHandler.
  destruct (String.eqb_spec permission "notifications") as [-> | Hne]; split;
    intros H; congruence.
Qed.

Lemma C9_witness :
  permissionRequestHandler "notifications" Examples.note_answer Examples.accepted
  = ([EConsoleLog "permission" "granted"], Ok tt)
  /\ permissionRequestHandler "media" Examples.note_answer Examples.accepted
     = ([EConsoleLog "permission" "denied"], Ok tt).
Proof.
  split.
  - apply (C9_only_notifications_granted "notifications" Examples.note_answer).
    reflexivity.
  - apply (C9_only_notifications_granted "media" Examples.note_answer).
    discriminate.
Defined.

(** C10.  The handler is written to hand the requested URL to the system
    browser and to return the action [deny].  It does neither: the first
    thing it evaluates is [require], which the ES module main.js does not
    bind, so every window-open request ends in a [ReferenceError] before
    [shell.openExternal] is reached, and nothing is returned. *)
Theorem C10_handler_throws_before_opening (details : HandlerDetails) (w : env) :
  handleExternalLinks details w
  = ([], Thrown (ReferenceError "require is not defined")).
Proof. reflexivity. Qed.

(** ** The examples of the spec, evaluated *)

Example semver_order_examples :
  semver.gt (VStr "1.3.0") (VStr "1.2.0") = Ok true
  /\ semver.gt (VStr "1.2.0") (VStr "1.2.0") = Ok false
  /\ semver.gt (VStr "1.10.0") (VStr "1.9.0") = Ok true
  /\ semver.gt (VStr "1.0.0") (VStr "1.0.0-rc.1") = Ok true
  /\ semver.gt (VStr "1.0.0-alpha.beta") (VStr "1.0.0-alpha.1") = Ok true
  /\ semver.gt (VStr "1.0.0+build.2") (VStr "1.0.0+build.1") = Ok false
  /\ semver.parse "1.3" = None
  /\ semver.parse "01.3.0" = None.
Proof. repeat split; reflexivity. Qed.

(** Running version 1.2.0, manifest version 1.3.0 with its link in [latest]:
    prompt, accept, download, launch of the returned path, exit. *)
Example accepted_cycle :
  trace checkForUpdates Examples.accepted
  = [EFetch manifest_url;
     EMessageBox (update_prompt (VStr "1.3.0"));
     EMessageBox downloading_notice;
     EDownload (VStr Examples.installer_url);
     EMessageBox download_complete_notice;
     EExec (launch_command (getSavePath Examples.installer));
     EAppExit 0;
     EConsoleLog "Installer started:" EmptyString].
Proof. reflexivity. Qed.

(** Running version 1.2.0, manifest version 1.2.0: the cycle ends after the
    fetch. *)
Example up_to_date_cycle :
  trace checkForUpdates Examples.up_to_date = [EFetch manifest_url].
Proof. reflexivity. Qed.

(** The manifest of the example of the spec: the download service is called
    with [undefined], its answer is whatever the world gives for it. *)
Example spec_example_cycle :
  downloads (trace checkForUpdates Examples.spec_example) = [VUndefined].
Proof. reflexivity. Qed.

(** * More about the update cycle *)

(** Splits a membership in an explicit list into its cases and drops the
    impossible ones. *)
Ltac split_elem H :=
  cbn [app] in H;
  repeat match type of H with
         | _ ∈ _ :: _ => apply elem_of_cons in H as [H | H]
         | _ ∈ [] => apply elem_of_nil in H; contradiction
         | _ = _ => first [discriminate H | idtac]
         end.

(** X1.  [checkForUpdates] never throws: whatever the network, the manifest,
    the user, the download and the launch do, the promise it returns is
    fulfilled. *)
Theorem checkForUpdates_never_throws (w : env) :
  outcome checkForUpdates w = Ok tt.
Proof. unfold outcome. now rewrite run_checkForUpdates. Qed.

(** X2.  [downloadAndInstallUpdate] does not look at its argument: for every
    value, also [undefined], it shows the downloading notice, hands the value
    to the download service, shows exactly one more dialog (the completion
    notice or the error notice), and never throws. *)
Theorem downloadAndInstallUpdate_any_link (downloadLink : value) (w : env) :
  let tr := trace (downloadAndInstallUpdate downloadLink) w in
  (exists rest,
      tr = EMessageBox downloading_notice :: EDownload downloadLink :: rest /\
      (message_boxes rest = [download_complete_notice]
       \/ message_boxes rest = [download_failed_notice])) /\
  downloads tr = [downloadLink] /\
  outcome (downloadAndInstallUpdate downloadLink) w = Ok tt.
Proof.
  cbn zeta. split; [| split].
  - unfold trace. rewrite run_downloadAndInstallUpdate. cbn [fst].
    destruct (world_download w downloadLink) as [item | e].
    + eexists. split; [reflexivity |]. left.
      unfold launch_callback_trace.
      destruct (exec_error (world_exec w (launch_command (getSavePath item))));
        reflexivity.
    + eexists. split; [reflexivity |]. right. reflexivity.
  - apply install_downloads_link.
  - apply downloadAndInstallUpdate_returns.
Qed.

(** The cycles in which something is downloaded. *)
Lemma trace_checkForUpdates_cases (w : env) :
  (exists latestData,
      fetched_manifest w = Some latestData /\ newer latestData w /\
      answer latestData w = 0 /\
      trace checkForUpdates w
      = [EFetch manifest_url; EMessageBox (update_prompt (own_prop latestData "version"))]
        ++ trace (downloadAndInstallUpdate (own_prop latestData "latest")) w)
  \/ (exists tail,
        trace checkForUpdates w = EFetch manifest_url :: tail /\
        (tail = []
         \/ (exists e, tail = [EConsoleError "Error checking for updates:" e])
         \/ (exists options, tail = [EMessageBox options]))).
Proof.
  destruct (fetched_manifest w) as [latestData |] eqn:Hm.
  - pose proof (trace_checkForUpdates_manifest _ _ Hm) as Htr.
    destruct (version_check latestData w) as [[|] | e] eqn:Hcheck.
    + destruct (answer latestData w) as [| n] eqn:Hans.
      * left. exists latestData.
        split; [reflexivity |]. split; [now apply version_check_newer |].
        split; [exact Hans |]. exact Htr.
      * right. eexists. split; [exact Htr |]. right. right. eexists. reflexivity.
    + right. eexists. split; [exact Htr |]. now left.
    + right. eexists. split; [exact Htr |]. right. left. now exists e.
  - destruct (trace_checkForUpdates_no_manifest _ Hm) as [e ->].
    right. eexists. split; [reflexivity |]. right. left. now exists e.
Qed.

(** X3.  The process is ended by the cycle only with code 0, and only when
    the whole chain succeeded: a newer manifest was fetched, the user
    accepted, the download resolved and the launch reported no error. *)
Theorem exit_only_after_successful_launch (w : env) (code : Z) :
  EAppExit code ∈ trace checkForUpdates w ->
  code = 0%Z /\
  exists latestData item,
    fetched_manifest w = Some latestData /\
    newer latestData w /\
    answer latestData w = 0 /\
    world_download w (own_prop latestData "latest") = Ok item /\
    exec_error (world_exec w (launch_command (getSavePath item))) = None.
Proof.
  destruct (trace_checkForUpdates_cases w)
    as [(latestData & Hm & Hnew & Hans & ->) | (tail & -> & Htail)].
  - unfold trace at 1. rewrite run_downloadAndInstallUpdate. cbn [fst].
    destruct (world_download w (own_prop latestData "latest")) as [item | e] eqn:Hdl.
    + unfold launch_callback_trace.
      destruct (exec_error (world_exec w (launch_command (getSavePath item))))
        as [e |] eqn:Hex; intros Hin; split_elem Hin.
      injection Hin as ->.
      split; [reflexivity |]. exists latestData, item. auto.
    + intros Hin. split_elem Hin.
  - intros Hin.
    destruct Htail as [-> | [[e ->] | [options ->]]]; split_elem Hin.
Qed.

Lemma exit_only_after_successful_launch_witness :
  exists latestData item,
    fetched_manifest Examples.accepted = Some latestData /\
    world_download Examples.accepted (own_prop latestData "latest") = Ok item.
Proof.
  destruct (exit_only_after_successful_launch Examples.accepted 0)
    as (_ & latestData & item & Hm & _ & _ & Hdl & _).
  - apply list_elem_of_In. vm_compute. tauto.
  - exists latestData, item. split; assumption.
Defined.

(** X4.  The download service is called at most once in a cycle, and only
    after a newer manifest was fetched and the user accepted the prompt. *)
Theorem download_only_after_consent (w : env) :
  let tr := trace checkForUpdates w in
  length (downloads tr) <= 1 /\
  (downloads tr <> [] ->
   exists latestData,
     fetched_manifest w = Some latestData /\
     newer latestData w /\
     answer latestData w = 0 /\
     downloads tr = [own_prop latestData "latest"]).
Proof.
  cbn zeta.
  destruct (trace_checkForUpdates_cases w)
    as [(latestData & Hm & Hnew & Hans & ->) | (tail & -> & Htail)].
  - unfold downloads. rewrite omap_app. cbn [omap list_omap app].
    fold (downloads (trace (downloadAndInstallUpdate (own_prop latestData "latest")) w)).
    rewrite install_downloads_link. split; [cbn; lia |].
    intros _. exists latestData. auto.
  - destruct Htail as [-> | [[e ->] | [options ->]]]; cbn;
      (split; [lia | intros H; now contradiction H]).
Qed.

Lemma download_only_after_consent_witness :
  exists latestData,
    fetched_manifest Examples.accepted = Some latestData /\
    downloads (trace checkForUpdates Examples.accepted) = [own_prop latestData "latest"].
Proof.
  destruct (download_only_after_consent Examples.accepted)
    as (_ & H).
  destruct H as (latestData & Hm & _ & _ & Hd).
  - vm_compute. discriminate.
  - exists latestData. split; assumption.
Defined.



(** X6.  Every cycle begins by fetching the fixed manifest URL and fetches
    nothing else: the manifest is asked for once per cycle, and the
    installer is reached through the download service only. *)
Theorem one_fetch_first (w : env) :
  exists rest,
    trace checkForUpdates w = EFetch manifest_url :: rest /\
    forall address, EFetch address ∉ rest.
Proof.
  destruct (trace_checkForUpdates_cases w)
    as [(latestData & Hm & Hnew & Hans & ->) | (tail & -> & Htail)].
  - eexists. split; [reflexivity |]. intros address.
    unfold trace. rewrite run_downloadAndInstallUpdate. cbn [fst].
    destruct (world_download w (own_prop latestData "latest")) as [item | e].
    + unfold launch_callback_trace.
      destruct (exec_error (world_exec w (launch_command (getSavePath item))));
        intros Hin; split_elem Hin.
    + intros Hin. split_elem Hin.
  - exists tail. split; [reflexivity |]. intros address Hin.
    destruct Htail as [-> | [[e ->] | [options ->]]]; split_elem Hin.
Qed.

(** * Properties of the shell *)

(** Unfolds the operations of [Sh] and the functions of the shell. *)
Ltac run_sh :=
  unfold calls, heap_after, returned, handler,
    constructor, initApp, on_ready, createWindow, createTray, setupTrayEvents,
    on_second_instance, on_tray_click, on_menu_exit, on_menu_show,
    injectCustomAssets, on_dom_ready, injectJS, injectCSS, readFileSync,
    setupNotificationListener, on_create_notification, destructure,
    notification_show, new_Notification, on_notification_click,
    setupPermissions, setupWindowEvents, on_close, initNotificationHandlers,
    sh_app_exit, sh_console_error, on_tray, on_mainWindow,
    sh_async, sh_lift, sh_try_catch, sh_settle, sh_modify, sh_gets, sh_ask,
    sh_call, sh_throw, sh_bind, sh_ret;
  cbn -[checkForUpdates].

(** ** Computations that leave the heap alone *)

Section Preserves.

Context {A B : Type}.

Lemma preserves_ret (a : A) : preserves (sh_ret a).
Proof. intros w h. reflexivity. Qed.

Lemma preserves_throw (e : js_error) : preserves (@sh_throw A e).
Proof. intros w h. reflexivity. Qed.

Lemma preserves_ask (f : shell_env -> A) : preserves (sh_ask f).
Proof. intros w h. reflexivity. Qed.

Lemma preserves_gets (f : heap -> A) : preserves (sh_gets f).
Proof. intros w h. reflexivity. Qed.

Lemma preserves_settle (r : result A) : preserves (sh_settle r).
Proof. intros w h. reflexivity. Qed.

Lemma preserves_lift (m : M A) : preserves (sh_lift m).
Proof. intros w h. unfold heap_after, sh_lift. now destruct (m (shell_cycle w)). Qed.

Lemma preserves_async (m : M A) : preserves (sh_async m).
Proof. intros w h. reflexivity. Qed.

Lemma preserves_bind (m : Sh A) (k : A -> Sh B) :
  preserves m -> (forall a, preserves (k a)) -> preserves (sh_bind m k).
Proof.
  intros Hm Hk w h. specialize (Hm w h). unfold heap_after, sh_bind in *.
  destruct (m w h) as [[cs h'] [a | e]]; cbn in Hm; subst h'; [| reflexivity].
  specialize (Hk a w h). unfold heap_after in Hk.
  destruct (k a w h) as [[cs' h''] r]. exact Hk.
Qed.

Lemma preserves_try_catch (m : Sh A) (handle : js_error -> Sh A) :
  preserves m -> (forall e, preserves (handle e)) -> preserves (sh_try_catch m handle).
Proof.
  intros Hm Hk w h. specialize (Hm w h). unfold heap_after, sh_try_catch in *.
  destruct (m w h) as [[cs h'] [a | e]]; cbn in Hm; subst h'; [reflexivity |].
  specialize (Hk e w h). unfold heap_after in Hk.
  destruct (handle e w h) as [[cs' h''] r]. exact Hk.
Qed.

Lemma preserves_on_mainWindow (property : string) (m : Sh A) :
  preserves m -> preserves (on_mainWindow property m).
Proof.
  intros Hm w h. specialize (Hm w h). unfold heap_after, on_mainWindow, sh_bind, sh_gets in *.
  destruct (this_mainWindow h); [| reflexivity].
  destruct (m w h) as [[cs h'] r]. exact Hm.
Qed.

End Preserves.

Lemma preserves_call (c : call) : preserves (sh_call c).
Proof. intros w h. reflexivity. Qed.

Create HintDb shell.
#[local] Hint Resolve preserves_ret preserves_throw preserves_ask preserves_gets
  preserves_settle preserves_lift preserves_async preserves_call
  preserves_bind preserves_try_catch preserves_on_mainWindow : shell.

(** Every handler but the one of [ready] leaves the heap as it finds it. *)
Lemma handler_preserves (i : input) : i <> Ready -> preserves (handler i).
Proof.
  intros Hi. destruct i; [contradiction | ..]; cbn [handler].
  - unfold on_second_instance. apply preserves_bind; [auto with shell |].
    intros [win |]; auto 10 with shell.
    apply preserves_bind; [auto with shell |]. intros m.
    apply preserves_bind; [destruct m |]; auto with shell.
  - unfold on_close. apply preserves_bind; [auto with shell |]. intros q.
    destruct (negb (truthy q)); auto 10 with shell.
  - unfold on_dom_ready, injectCSS, injectJS, readFileSync.
    apply preserves_try_catch; [| unfold sh_console_error; auto with shell].
    apply preserves_bind.
    + apply preserves_bind; [auto with shell |]. intros [|]; auto 10 with shell.
    + intros _. apply preserves_bind; [auto with shell |]. intros [|]; auto 10 with shell.
  - unfold on_create_notification, destructure, new_Notification, notification_show,
      sh_console_error.
    apply preserves_bind; [destruct payload; auto with shell |].
    intros _. auto 12 with shell.
  - unfold on_notification_click. auto with shell.
  - unfold on_tray_click. apply preserves_bind; [auto with shell |].
    intros [|]; auto with shell.
  - unfold on_menu_show. auto with shell.
  - unfold on_menu_exit, sh_app_exit. auto with shell.
  - auto with shell.
Qed.

(** The heap the handler of [ready] leaves: the window and the tray are set,
    [app.isQuiting] is what it was. *)
Lemma heap_after_ready (w : shell_env) (h : heap) :
  heap_after on_ready w h
  = {| this_mainWindow := Some main_window_options;
       this_tray := Some getIconPath;
       app_isQuiting := app_isQuiting h |}.
Proof. run_sh. reflexivity. Qed.

Lemma heap_after_constructor (w : shell_env) (h : heap) :
  heap_after constructor w h = h.
Proof.
  run_sh. destruct (shell_notifications_supported w), (shell_lock w); reflexivity.
Qed.

(** ** Start-up *)

(** X7.  A second instance, which does not get the single-instance lock,
    exits at once with code 0: it registers no listener, sets no login item,
    creates no window or tray and never checks for updates.  Only the check
    of notification support comes before. *)
Theorem second_instance_exits_at_once (w : shell_env) (h : heap) :
  shell_lock w = false ->
  calls constructor w h
  = (if shell_notifications_supported w then []
     else [ConsoleErrorMessage "Notifications are not supported"])
    ++ [RequestSingleInstanceLock; Basic (EAppExit 0)] /\
  heap_after constructor w h = h /\
  returned constructor w h = Ok tt.
Proof.
  intros Hlock. run_sh. rewrite Hlock.
  destruct (shell_notifications_supported w); repeat split.
Qed.

Lemma second_instance_exits_at_once_witness :
  calls constructor ShellExamples.second initial_heap
  = [RequestSingleInstanceLock; Basic (EAppExit 0)].
Proof.
  apply (second_instance_exits_at_once ShellExamples.second initial_heap).
  reflexivity.
Defined.

(** X8.  The first instance does not exit at start-up and creates nothing
    yet: it registers the listeners of [second-instance] and [ready], in
    that order, asks to be opened at login, and leaves both fields
    [null]. *)
Theorem first_instance_waits_for_ready (w : shell_env) :
  shell_lock w = true ->
  let cs := calls constructor w initial_heap in
  registrations cs = [("app", "second-instance"); ("app", "ready")] /\
  SetLoginItemSettings true ∈ cs /\
  exit_calls cs = [] /\
  (forall options, NewBrowserWindow options ∉ cs) /\
  heap_after constructor w initial_heap = initial_heap /\
  returned constructor w initial_heap = Ok tt.
Proof.
  intros Hlock. cbn zeta. run_sh. rewrite Hlock.
  destruct (shell_notifications_supported w); cbn;
    (repeat split;
     [ apply list_elem_of_In; cbn; tauto
     | intros options Hin; split_elem Hin ]).
Qed.

Lemma first_instance_waits_for_ready_witness :
  registrations (calls constructor ShellExamples.no_file initial_heap)
  = [("app", "second-instance"); ("app", "ready")].
Proof.
  apply (first_instance_waits_for_ready ShellExamples.no_file).
  reflexivity.
Defined.

(** X9.  The handler of [ready] creates the window, then the tray, then runs
    the update cycle once, whose calls come last; it never throws, and it
    leaves the window and the tray fields set.  The listeners it registers
    are those of [close], [create-notification], [dom-ready] and the tray's
    [click]. *)
Theorem ready_creates_window_tray_then_checks (w : shell_env) (h : heap) :
  calls on_ready w h
  = calls createWindow w h
    ++ calls createTray w (heap_after createWindow w h)
    ++ (Basic <$> trace checkForUpdates (shell_cycle w)) /\
  registrations (calls createWindow w h ++ calls createTray w (heap_after createWindow w h))
  = [("mainWindow", "close"); ("ipcMain", "create-notification");
     ("webContents", "dom-ready"); ("tray", "click")] /\
  this_mainWindow (heap_after on_ready w h) = Some main_window_options /\
  this_tray (heap_after on_ready w h) = Some getIconPath /\
  returned on_ready w h = Ok tt.
Proof. run_sh. repeat split. Qed.

(** X10.  A second launch of the application before the window exists is
    ignored; once it exists the window is focused, after being restored
    when and only when it is minimized.  No second window is created. *)
Theorem second_instance_focuses_the_window (w : shell_env) (h : heap) :
  calls on_second_instance w h
  = match this_mainWindow h with
    | None => []
    | Some _ => (if shell_minimized w then [WindowRestore] else []) ++ [WindowFocus]
    end /\
  heap_after on_second_instance w h = h /\
  returned on_second_instance w h = Ok tt.
Proof.
  run_sh. destruct (this_mainWindow h); [destruct (shell_minimized w) |];
    repeat split.
Qed.

(** ** The life of the shell *)

Lemma heap_after_handler (i : input) (w : shell_env) (h : heap) :
  heap_after (handler i) w h
  = match i with
    | Ready => {| this_mainWindow := Some main_window_options;
                  this_tray := Some getIconPath;
                  app_isQuiting := app_isQuiting h |}
    | _ => h
    end.
Proof.
  destruct i; try (apply handler_preserves; discriminate).
  apply heap_after_ready.
Qed.

Lemma isQuiting_after_run (deliveries : list (input * shell_env)) (h : heap) :
  app_isQuiting (heap_after_run deliveries h) = app_isQuiting h.
Proof.
  revert h. induction deliveries as [| [i w] rest IH]; intros h; [reflexivity |].
  cbn [heap_after_run]. rewrite IH, heap_after_handler. now destruct i.
Qed.

(** X11.  Once the window field is set, no delivery clears it: the window
    the handlers act on is never lost. *)
Theorem mainWindow_never_cleared (deliveries : list (input * shell_env)) (h : heap) :
  this_mainWindow h <> None ->
  this_mainWindow (heap_after_run deliveries h) <> None.
Proof.
  revert h. induction deliveries as [| [i w] rest IH]; intros h Hwin; [exact Hwin |].
  cbn [heap_after_run]. apply IH. rewrite heap_after_handler.
  destruct i; try exact Hwin. discriminate.
Qed.

Lemma mainWindow_never_cleared_witness :
  this_mainWindow
    (heap_after_run [(Close, ShellExamples.no_file); (MenuExit, ShellExamples.no_file)]
       ShellExamples.running) <> None.
Proof.
  apply (mainWindow_never_cleared
           [(Close, ShellExamples.no_file); (MenuExit, ShellExamples.no_file)]
           ShellExamples.running).
  discriminate.
Defined.

(** X12.  Nothing in main.js ever sets [app.isQuiting], so in every heap the
    running application can reach the flag is [undefined], and the handler
    of [close] always cancels the close and hides the window instead. *)
Theorem close_always_hides (h : heap) (w : shell_env) :
  reachable h ->
  this_mainWindow h <> None ->
  app_isQuiting h = VUndefined /\
  calls on_close w h = [PreventDefault; WindowHide] /\
  returned on_close w h = Ok tt.
Proof.
  intros (w0 & deliveries & _ & Hh) Hwin.
  assert (Hq : app_isQuiting h = VUndefined)
    by now rewrite Hh, isQuiting_after_run, heap_after_constructor.
  clear Hh. split; [exact Hq |].
  run_sh. rewrite Hq. cbn.
  destruct (this_mainWindow h); [repeat split | contradiction].
Qed.

Lemma close_always_hides_witness :
  calls on_close ShellExamples.no_file ShellExamples.running
  = [PreventDefault; WindowHide].
Proof.
  apply (close_always_hides ShellExamples.running ShellExamples.no_file).
  - exists ShellExamples.no_file, [(Ready, ShellExamples.no_file)].
    split; reflexivity.
  - discriminate.
Defined.

(** X13.  With the window field set, what each handler returns is settled
    by the delivery alone, whatever the world answers (calls into Electron
    outside a [try] block being taken to return): every handler returns,
    but for two.  The window-open handler always throws the [ReferenceError]
    of [require]; the handler of [create-notification] throws a [TypeError]
    exactly when the payload is [null] or [undefined]. *)
Theorem handlers_do_not_throw (i : input) (w : shell_env) (h : heap) :
  this_mainWindow h <> None ->
  returned (handler i) w h
  = match i with
    | WindowOpen _ => Thrown (ReferenceError "require is not defined")
    | CreateNotification payload =>
        if nullish payload
        then Thrown (TypeError ("Cannot destructure property 'title' of "
                                +:+ ToString payload))
        else Ok tt
    | _ => Ok tt
    end.
Proof.
  intros Hwin.
  destruct (this_mainWindow h) as [win |] eqn:Hw; [clear Hwin | contradiction].
  destruct i; cbn [handler].
  - run_sh. reflexivity.
  - run_sh. rewrite Hw. now destruct (shell_minimized w).
  - run_sh. destruct (truthy (app_isQuiting h)); cbn; [reflexivity |].
    now rewrite Hw.
  - run_sh.
    destruct (shell_exists w ["assets"; "style.css"]); cbn;
      [destruct (shell_read w ["assets"; "style.css"]); cbn; [rewrite Hw; cbn | reflexivity] |];
      (destruct (shell_exists w ["assets"; "script.js"]); cbn;
       [destruct (shell_read w ["assets"; "script.js"]); cbn; [rewrite Hw |] |]);
      reflexivity.
  - unfold returned, on_create_notification, destructure.
    destruct payload; cbn [nullish]; try reflexivity;
      unfold new_Notification, notification_show, sh_console_error, sh_try_catch,
        sh_settle, sh_ask, sh_call, sh_bind, sh_ret; cbn;
      match goal with
      | |- context [shell_new_notification w ?o] =>
          destruct (shell_new_notification w o); cbn; [| reflexivity]
      end;
      destruct (shell_show_notification w); reflexivity.
  - run_sh. now rewrite Hw.
  - run_sh. rewrite Hw. cbn. destruct (shell_visible w); cbn; now rewrite Hw.
  - run_sh. now rewrite Hw.
  - reflexivity.
  - reflexivity.
Qed.

Lemma handlers_do_not_throw_witness :
  returned (handler DomReady) ShellExamples.unreadable_css ShellExamples.running = Ok tt
  /\ returned (handler (CreateNotification ShellExamples.greeting))
       ShellExamples.no_notification ShellExamples.running = Ok tt
  /\ returned (handler (WindowOpen {| url := "https://example.com/" |}))
       ShellExamples.no_file ShellExamples.running
     = Thrown (ReferenceError "require is not defined").
Proof.
  assert (Hwin : this_mainWindow ShellExamples.running <> None) by discriminate.
  split; [| split].
  - exact (handlers_do_not_throw DomReady ShellExamples.unreadable_css
             ShellExamples.running Hwin).
  - exact (handlers_do_not_throw (CreateNotification ShellExamples.greeting)
             ShellExamples.no_notification ShellExamples.running Hwin).
  - exact (handlers_do_not_throw (WindowOpen {| url := "https://example.com/" |})
             ShellExamples.no_file ShellExamples.running Hwin).
Defined.

(** X14.  The application is ended only from the tray menu's exit item and
    from the update cycle that [ready] starts: closing the window, clicking
    the tray, a second launch, a page load, a notification or a link never
    call [app.exit]. *)
Theorem only_menu_and_update_exit (i : input) (w : shell_env) (h : heap) :
  exit_calls (calls (handler i) w h)
  = match i with
    | MenuExit => [0%Z]
    | Ready => exits (trace checkForUpdates (shell_cycle w))
    | _ => []
    end.
Proof.
  destruct i; cbn [handler].
  - run_sh. unfold exit_calls, exits, trace.
    induction (checkForUpdates (shell_cycle w)).1 as [| ev tr IH]; [reflexivity |].
    cbn. rewrite IH. now destruct ev.
  - run_sh. destruct (this_mainWindow h); [destruct (shell_minimized w) |]; reflexivity.
  - run_sh. destruct (truthy (app_isQuiting h)); cbn; [reflexivity |].
    destruct (this_mainWindow h); reflexivity.
  - run_sh.
    destruct (shell_exists w ["assets"; "style.css"]); cbn;
      [destruct (shell_read w ["assets"; "style.css"]); cbn;
       [destruct (this_mainWindow h); cbn | reflexivity] |];
      try reflexivity;
      (destruct (shell_exists w ["assets"; "script.js"]); cbn;
       [destruct (shell_read w ["assets"; "script.js"]); cbn;
        [destruct (this_mainWindow h); cbn |] |]);
      reflexivity.
  - unfold calls, on_create_notification, destructure.
    destruct payload;
      unfold new_Notification, notification_show, sh_console_error, sh_try_catch,
        sh_settle, sh_ask, sh_call, sh_bind, sh_ret, sh_throw; cbn;
      try reflexivity;
      match goal with
      | |- context [shell_new_notification w ?o] =>
          destruct (shell_new_notification w o); cbn; [| reflexivity]
      end;
      destruct (shell_show_notification w); reflexivity.
  - run_sh. destruct (this_mainWindow h); reflexivity.
  - run_sh. destruct (this_mainWindow h) eqn:Hw; [| reflexivity]. cbn.
    destruct (shell_visible w); cbn; rewrite Hw; reflexivity.
  - run_sh. destruct (this_mainWindow h); reflexivity.
  - reflexivity.
  - reflexivity.
Qed.

(** ** Notifications *)

(** X15.  A [create-notification] message without a payload is not caught by
    the handler's [try]: the parameter pattern throws a [TypeError] before
    the body is entered, and nothing is created or logged. *)
Theorem notification_without_payload_throws (payload : value) (w : shell_env) (h : heap) :
  nullish payload = true ->
  calls (on_create_notification payload) w h = [] /\
  exists text, returned (on_create_notification payload) w h = Thrown (TypeError text).
Proof.
  intros Hnull. destruct payload; try discriminate Hnull;
    (split; [reflexivity | eexists; reflexivity]).
Qed.

Lemma notification_without_payload_throws_witness :
  calls (on_create_notification VUndefined) ShellExamples.no_file ShellExamples.running = [].
Proof.
  apply (notification_without_payload_throws VUndefined).
  reflexivity.
Defined.

(** X16.  With a payload, the handler asks for one notification: its title
    is the payload's [title], its body the payload's [body] or the empty
    string when that is missing or otherwise falsy, its icon always the
    application's own.  When Electron accepts it, it is shown and the click
    listener is registered; when the constructor or [show] throws, the error
    is logged, the remaining steps are skipped, and the handler returns. *)
Theorem notification_is_built_from_title_and_body (payload : value) (w : shell_env) (h : heap) :
  nullish payload = false ->
  let options :=
    {| notification_title := own_prop payload "title";
       notification_body := if truthy (own_prop payload "body")
                            then own_prop payload "body" else VStr EmptyString;
       notification_icon := getIconPath |} in
  calls (on_create_notification payload) w h
  = match shell_new_notification w options, shell_show_notification w with
    | Ok _, Ok _ => [NewNotification options; NotificationShow; On "notification" "click"]
    | Ok _, Thrown e =>
        [NewNotification options; NotificationShow;
         Basic (EConsoleError "Error creating notification:" e)]
    | Thrown e, _ =>
        [NewNotification options; Basic (EConsoleError "Error creating notification:" e)]
    end /\
  returned (on_create_notification payload) w h = Ok tt.
Proof.
  intros Hnull. cbn zeta.
  unfold calls, returned, on_create_notification, destructure, js_or.
  destruct payload; try discriminate Hnull;
    unfold new_Notification, notification_show, sh_console_error, sh_try_catch,
      sh_settle, sh_ask, sh_call, sh_bind, sh_ret; cbn;
    match goal with
    | |- context [shell_new_notification w ?o] =>
        destruct (shell_new_notification w o); cbn; [| split; reflexivity]
    end;
    destruct (shell_show_notification w); split; reflexivity.
Qed.

Lemma notification_is_built_from_title_and_body_witness :
  calls (on_create_notification ShellExamples.no_body) ShellExamples.no_file
    ShellExamples.running
  = [NewNotification {| notification_title := VStr "Bale";
                        notification_body := VStr EmptyString;
                        notification_icon := getIconPath |};
     NotificationShow; On "notification" "click"].
Proof.
  apply (notification_is_built_from_title_and_body ShellExamples.no_body
           ShellExamples.no_file ShellExamples.running).
  reflexivity.
Defined.

(** X17.  The [icon] a page sends is ignored, as is everything in the
    payload but [title] and [body]: two payloads that agree on these two make
    the handler do the same. *)
Theorem notification_ignores_the_sent_icon (p q : value) (w : shell_env) (h : heap) :
  nullish p = false ->
  nullish q = false ->
  own_prop p "title" = own_prop q "title" ->
  own_prop p "body" = own_prop q "body" ->
  on_create_notification p w h = on_create_notification q w h.
Proof.
  intros Hp Hq Htitle Hbody.
  unfold on_create_notification. rewrite Htitle, Hbody.
  destruct p; try discriminate Hp; destruct q; try discriminate Hq; reflexivity.
Qed.

Lemma notification_ignores_the_sent_icon_witness :
  on_create_notification ShellExamples.greeting ShellExamples.no_file ShellExamples.running
  = on_create_notification
      (VObj {[ "title" := VStr "Bale"; "body" := VStr "hello" ]})
      ShellExamples.no_file ShellExamples.running.
Proof.
  apply (notification_ignores_the_sent_icon ShellExamples.greeting
           (VObj {[ "title" := VStr "Bale"; "body" := VStr "hello" ]}));
    reflexivity.
Defined.

(** ** Injected assets *)

(** X18.  The handler of [dom-ready] never throws, in no heap and no world:
    a file that cannot be read, or a window that is not there, ends in the
    log. *)
Theorem dom_ready_never_throws (w : shell_env) (h : heap) :
  returned on_dom_ready w h = Ok tt.
Proof.
  run_sh.
  destruct (shell_exists w ["assets"; "style.css"]); cbn;
    [destruct (shell_read w ["assets"; "style.css"]); cbn;
     [destruct (this_mainWindow h); cbn | reflexivity] |];
    try reflexivity;
    (destruct (shell_exists w ["assets"; "script.js"]); cbn;
     [destruct (shell_read w ["assets"; "script.js"]); cbn;
      [destruct (this_mainWindow h); cbn |] |]);
    reflexivity.
Qed.

(** X19.  When neither asset file exists nothing is read, injected or
    logged. *)
Theorem no_assets_nothing_injected (w : shell_env) (h : heap) :
  shell_exists w ["assets"; "style.css"] = false ->
  shell_exists w ["assets"; "script.js"] = false ->
  on_dom_ready w h = ([], h, Ok tt).
Proof. intros Hcss Hjs. run_sh. rewrite Hcss. cbn. rewrite Hjs. reflexivity. Qed.

Lemma no_assets_nothing_injected_witness :
  on_dom_ready ShellExamples.no_file ShellExamples.running
  = ([], ShellExamples.running, Ok tt).
Proof.
  apply (no_assets_nothing_injected ShellExamples.no_file ShellExamples.running);
    reflexivity.
Defined.

(** X20.  The style sheet and the script share one [try]: when the style
    sheet exists and reading it throws, the error is logged once and the
    script is not injected, even if it is there and readable. *)
Theorem unreadable_css_skips_the_script (w : shell_env) (h : heap) (e : js_error) :
  shell_exists w ["assets"; "style.css"] = true ->
  shell_read w ["assets"; "style.css"] = Thrown e ->
  calls on_dom_ready w h = [Basic (EConsoleError "Error injecting assets:" e)].
Proof. intros Hcss Hread. run_sh. rewrite Hcss. cbn. rewrite Hread. reflexivity. Qed.

Lemma unreadable_css_skips_the_script_witness :
  calls on_dom_ready ShellExamples.unreadable_css ShellExamples.running
  = [Basic (EConsoleError "Error injecting assets:" (JsError "Error" "EACCES"))].
Proof.
  apply (unreadable_css_skips_the_script ShellExamples.unreadable_css
           ShellExamples.running (JsError "Error" "EACCES"));
    reflexivity.
Defined.

(** X21.  Each asset is injected when and only when its file exists, the
    style sheet before the script; with both files readable and the window
    there, the calls are the two injections, with the contents read. *)
Theorem assets_injected_css_first (w : shell_env) (h : heap) (css js : string) :
  this_mainWindow h <> None ->
  (shell_exists w ["assets"; "style.css"] = true ->
   shell_read w ["assets"; "style.css"] = Ok css) ->
  (shell_exists w ["assets"; "script.js"] = true ->
   shell_read w ["assets"; "script.js"] = Ok js) ->
  calls on_dom_ready w h
  = (if shell_exists w ["assets"; "style.css"] then [InsertCSS css] else [])
    ++ (if shell_exists w ["assets"; "script.js"] then [ExecuteJavaScript js] else []).
Proof.
  intros Hwin Hcss Hjs.
  destruct (this_mainWindow h) as [win |] eqn:Hw; [clear Hwin | contradiction].
  run_sh.
  destruct (shell_exists w ["assets"; "style.css"]); cbn;
    [rewrite (Hcss eq_refl); cbn; rewrite Hw; cbn |];
    (destruct (shell_exists w ["assets"; "script.js"]); cbn;
     [rewrite (Hjs eq_refl); cbn; rewrite Hw; cbn |]);
    reflexivity.
Qed.

Lemma assets_injected_css_first_witness :
  calls on_dom_ready ShellExamples.with_assets ShellExamples.running
  = [InsertCSS "body{}"; ExecuteJavaScript "console.log(1)"].
Proof.
  apply (assets_injected_css_first ShellExamples.with_assets ShellExamples.running
           "body{}" "console.log(1)").
  - discriminate.
  - reflexivity.
  - reflexivity.
Defined.
